(** * SettingsActivity: navigation and value mutation of the settings screen

    Shallow embedding of [src/activities/settings/SettingsActivity.cpp]
    (descriptor tables, [onEnter], [loop], [toggleCurrentSetting]) and the
    properties of its state machine. *)

From Stdlib Require Import ZArith List String Bool Lia.
From Stdlib Require Import DecimalString.
Import ListNotations.

Local Open Scope string_scope.
Local Open Scope Z_scope.

(** ** Small integer conversions

    The fields of [CrossPointSettings] that a descriptor is bound to are read
    in the source through three 8-bit views: [const bool], [const uint8_t]
    and [const int8_t].  A field is therefore kept as its 8-bit cell, an
    integer in [0, 256), and every C++ conversion is written out. *)

Definition to_uint8 (z : Z) : Z := z mod 256.

Definition to_int8 (z : Z) : Z :=
  let u := z mod 256 in if u <? 128 then u else u - 256.

Definition to_bool (z : Z) : bool := negb (z mod 256 =? 0).

Definition of_bool (b : bool) : Z := if b then 1 else 0.

(** ** The settings store *)

(** The members of [CrossPointSettings] named by the descriptor tables
    ([&CrossPointSettings::sleepScreen] and so on). *)
Inductive Field : Set :=
| sleepScreen | sleepScreenCoverMode | sleepScreenCoverFilter | statusBar
| hideBatteryPercentage | refreshFrequency | uiTheme
| fontFamily | fontSize | lineSpacing | screenMargin | paragraphAlignment
| hyphenationEnabled | orientation | extraParagraphSpacing | textAntiAliasing
| sideButtonLayout | longPressChapterSkip | shortPwrBtn
| sleepTimeout.

Definition Field_eq_dec (a b : Field) : {a = b} + {a <> b}.
Proof. decide equality. Defined.

(** [SETTINGS]: one 8-bit cell per member. *)
Definition Store := Field -> Z.

(** [SETTINGS.*(p) = x] : the assigned value is converted to the cell. *)
Definition assign (s : Store) (p : Field) (x : Z) : Store :=
  fun q => if Field_eq_dec q p then to_uint8 x else s q.

(** ** Setting descriptors *)

Inductive SettingType : Set := TOGGLE | ENUM | ACTION | VALUE.

Record ValueRange : Set := mkRange { min : Z; max : Z; step : Z }.

(** Modelled from the spec: [SettingInfo] and its four named constructors are
    declared in SettingsActivity.h, which is not among the sources.  The spec
    gives a descriptor a display name, a kind, a bound field that is present
    for Toggle, Enum and Value and absent for Action, the ordered labels of an
    Enum and the range [{min, max, step}] of a Value; the member names are
    the ones [toggleCurrentSetting] reads. *)
Record SettingInfo : Set := mkSetting {
  name : string;
  type : SettingType;
  valuePtr : option Field;          (* [None] is [nullptr] *)
  enumValues : list string;
  valueRange : ValueRange
}.

Module SettingInfoCtor.
Definition Toggle (n : string) (p : Field) : SettingInfo :=
  mkSetting n TOGGLE (Some p) [] (mkRange 0 0 0).
Definition Enum (n : string) (p : Field) (labels : list string) : SettingInfo :=
  mkSetting n ENUM (Some p) labels (mkRange 0 0 0).
Definition Action (n : string) : SettingInfo :=
  mkSetting n ACTION None [] (mkRange 0 0 0).
Definition Value (n : string) (p : Field) (r : ValueRange) : SettingInfo :=
  mkSetting n VALUE (Some p) [] r.
End SettingInfoCtor.
Import SettingInfoCtor.

(** ** Constants and descriptor tables (lines 16-64) *)

(** Modelled from the spec: [categoryCount] is declared in SettingsActivity.h;
    the spec fixes four categories and [categoryNames] has four entries. *)
Definition categoryCount : Z := 4.

Definition categoryNames : list string := ["Display"; "Reader"; "Controls"; "System"].

Definition changeTabsMs : Z := 700.

Definition displaySettingsCount : Z := 7.
Definition displaySettings : list SettingInfo := [
  Enum "Sleep Screen" sleepScreen
       ["Dark"; "Light"; "Custom"; "Cover"; "None"; "Cover + Custom"];
  Enum "Sleep Screen Cover Mode" sleepScreenCoverMode ["Fit"; "Crop"];
  Enum "Sleep Screen Cover Filter" sleepScreenCoverFilter
       ["None"; "Contrast"; "Inverted"];
  Enum "Status Bar" statusBar
       ["None"; "No Progress"; "Full w/ Percentage"; "Full w/ Progress Bar"; "Progress Bar"];
  Enum "Hide Battery %" hideBatteryPercentage ["Never"; "In Reader"; "Always"];
  Enum "Refresh Frequency" refreshFrequency
       ["1 page"; "5 pages"; "10 pages"; "15 pages"; "30 pages"];
  Enum "UI Theme" uiTheme ["Classic"; "Lyra"]
].

Definition readerSettingsCount : Z := 9.
Definition readerSettings : list SettingInfo := [
  Enum "Font Family" fontFamily ["Bookerly"; "Noto Sans"; "Open Dyslexic"];
  Enum "Font Size" fontSize ["Small"; "Medium"; "Large"; "X Large"];
  Enum "Line Spacing" lineSpacing ["Tight"; "Normal"; "Wide"];
  Value "Screen Margin" screenMargin (mkRange 5 40 5);
  Enum "Paragraph Alignment" paragraphAlignment ["Justify"; "Left"; "Center"; "Right"];
  Toggle "Hyphenation" hyphenationEnabled;
  Enum "Reading Orientation" orientation
       ["Portrait"; "Landscape CW"; "Inverted"; "Landscape CCW"];
  Toggle "Extra Paragraph Spacing" extraParagraphSpacing;
  Toggle "Text Anti-Aliasing" textAntiAliasing
].

Definition controlsSettingsCount : Z := 4.
Definition controlsSettings : list SettingInfo := [
  Action "Remap Front Buttons";
  Enum "Side Button Layout (reader)" sideButtonLayout ["Prev, Next"; "Next, Prev"];
  Toggle "Long-press Chapter Skip" longPressChapterSkip;
  Enum "Short Power Button Click" shortPwrBtn ["Ignore"; "Sleep"; "Page Turn"]
].

Definition systemSettingsCount : Z := 5.
Definition systemSettings : list SettingInfo := [
  Enum "Time to Sleep" sleepTimeout ["1 min"; "5 min"; "10 min"; "15 min"; "30 min"];
  Action "KOReader Sync";
  Action "OPDS Browser";
  Action "Clear Cache";
  Action "Check for updates"
].

(** ** The screen and its surroundings *)

(** The sub-screens [toggleCurrentSetting] can enter. *)
Inductive SubScreen : Set :=
| ButtonRemapActivity | KOReaderSettingsActivity | CalibreSettingsActivity
| ClearCacheActivity | OtaUpdateActivity.

(** Calls into the collaborators, in the order the code makes them. *)
Inductive Event : Set :=
| SaveToFile                      (* SETTINGS.saveToFile() *)
| GoHome                          (* onGoHome() *)
| MutexTake | MutexGive           (* xSemaphoreTake / xSemaphoreGive on renderingMutex *)
| ExitActivity                    (* exitActivity() *)
| EnterNewActivity (a : SubScreen).

Definition Event_eq_dec (a b : Event) : {a = b} + {a <> b}.
Proof. repeat decide equality. Defined.

(** The members of [SettingsActivity] the logic uses, the global [SETTINGS]
    and the log of collaborator calls.  [settingsList] points at one of the
    constant tables; the table it points at is kept by value, and
    [settingsCount] is the separate [int] of the source. *)
Record World : Set := mkWorld {
  selectedCategoryIndex : Z;
  selectedSettingIndex : Z;
  settingsList : list SettingInfo;
  settingsCount : Z;
  updateRequired : bool;
  subActivity : option SubScreen;
  SETTINGS : Store;
  events : list Event
}.

Definition set_selectedCategoryIndex (c : Z) (w : World) : World :=
  mkWorld c (selectedSettingIndex w) (settingsList w) (settingsCount w)
          (updateRequired w) (subActivity w) (SETTINGS w) (events w).

Definition set_selectedSettingIndex (i : Z) (w : World) : World :=
  mkWorld (selectedCategoryIndex w) i (settingsList w) (settingsCount w)
          (updateRequired w) (subActivity w) (SETTINGS w) (events w).

Definition set_settings (l : list SettingInfo) (n : Z) (w : World) : World :=
  mkWorld (selectedCategoryIndex w) (selectedSettingIndex w) l n
          (updateRequired w) (subActivity w) (SETTINGS w) (events w).

Definition set_updateRequired (b : bool) (w : World) : World :=
  mkWorld (selectedCategoryIndex w) (selectedSettingIndex w) (settingsList w)
          (settingsCount w) b (subActivity w) (SETTINGS w) (events w).

Definition set_subActivity (a : option SubScreen) (w : World) : World :=
  mkWorld (selectedCategoryIndex w) (selectedSettingIndex w) (settingsList w)
          (settingsCount w) (updateRequired w) a (SETTINGS w) (events w).

Definition set_SETTINGS (s : Store) (w : World) : World :=
  mkWorld (selectedCategoryIndex w) (selectedSettingIndex w) (settingsList w)
          (settingsCount w) (updateRequired w) (subActivity w) s (events w).

Definition emit (e : Event) (w : World) : World :=
  mkWorld (selectedCategoryIndex w) (selectedSettingIndex w) (settingsList w)
          (settingsCount w) (updateRequired w) (subActivity w) (SETTINGS w)
          (events w ++ [e]).

(** What [mappedInput] answers during one call of [loop]. *)
Record Input : Set := mkInput {
  confirmPressed : bool;            (* wasPressed(Button::Confirm) *)
  backPressed : bool;               (* wasPressed(Button::Back) *)
  upReleased : bool;                (* wasReleased(Button::Up) *)
  downReleased : bool;
  leftReleased : bool;
  rightReleased : bool;
  heldTime : Z                      (* getHeldTime(), milliseconds *)
}.

(** The result of one call of [loop]. *)
Inductive Outcome : Set :=
| Stay (w : World)         (* returned with the screen still in charge *)
| Home (w : World)         (* returned after [onGoHome()] *)
| Delegated (w : World)    (* [subActivity->loop()] ran instead *)
| Undefined.               (* no defined behaviour: see [toggleCurrentSetting] *)

(** ** onEnter (lines 72-93) *)

Definition onEnter (w : World) : World :=
  let w := set_selectedCategoryIndex 0 w in
  let w := set_selectedSettingIndex 0 w in
  let w := set_settings displaySettings displaySettingsCount w in
  set_updateRequired true w.

(** ** toggleCurrentSetting (lines 182-251) *)

(** The [strcmp] chain of the ACTION branch: which sub-screen a name enters. *)
Definition actionFor (n : string) : option SubScreen :=
  if String.eqb n "Remap Front Buttons" then Some ButtonRemapActivity
  else if String.eqb n "KOReader Sync" then Some KOReaderSettingsActivity
  else if String.eqb n "OPDS Browser" then Some CalibreSettingsActivity
  else if String.eqb n "Clear Cache" then Some ClearCacheActivity
  else if String.eqb n "Check for updates" then Some OtaUpdateActivity
  else None.

(** Modelled from the spec: [exitActivity] and [enterNewActivity] belong to
    ActivityWithSubactivity, which is not among the sources.  The spec has a
    launch transfer control to the sub-screen, and the completion callback
    return it; so [exitActivity] clears [subActivity] and [enterNewActivity]
    sets it. *)
Definition exitActivity (w : World) : World :=
  set_subActivity None (emit ExitActivity w).

Definition enterNewActivity (a : SubScreen) (w : World) : World :=
  set_subActivity (Some a) (emit (EnterNewActivity a) w).

(** One arm of the ACTION branch: take the mutex, leave, enter, give. *)
Definition launch (a : SubScreen) (w : World) : World :=
  emit MutexGive (enterNewActivity a (exitActivity (emit MutexTake w))).

(** The callback handed to every sub-screen: [exitActivity(); updateRequired = true]. *)
Definition onSubActivityComplete (w : World) : World :=
  set_updateRequired true (exitActivity w).

(** [None] stands for the two places where the source has no defined
    behaviour: reading [settingsList] past the end of the table it points
    at, and taking a remainder by a label count that converts to the
    [uint8_t] zero. *)
Definition toggleCurrentSetting (w : World) : option World :=
  let selectedSetting := selectedSettingIndex w - 1 in
  if (selectedSetting <? 0) || (selectedSetting >=? settingsCount w) then Some w
  else
    match nth_error (settingsList w) (Z.to_nat selectedSetting) with
    | None => None
    | Some setting =>
        match type setting, valuePtr setting with
        | TOGGLE, Some p =>
            let currentValue := to_bool (SETTINGS w p) in
            Some (emit SaveToFile
                    (set_SETTINGS (assign (SETTINGS w) p (of_bool (negb currentValue))) w))
        | ENUM, Some p =>
            let currentValue := to_uint8 (SETTINGS w p) in
            let size := to_uint8 (Z.of_nat (List.length (enumValues setting))) in
            if size =? 0 then None
            else Some (emit SaveToFile
                         (set_SETTINGS (assign (SETTINGS w) p ((currentValue + 1) mod size)) w))
        | VALUE, Some p =>
            let currentValue := to_int8 (SETTINGS w p) in
            let r := valueRange setting in
            if currentValue + step r >? max r
            then Some (emit SaveToFile (set_SETTINGS (assign (SETTINGS w) p (min r)) w))
            else Some (emit SaveToFile
                         (set_SETTINGS (assign (SETTINGS w) p (currentValue + step r)) w))
        | ACTION, _ =>
            match actionFor (name setting) with
            | Some a => Some (emit SaveToFile (launch a w))
            | None => Some (emit SaveToFile w)
            end
        | _, None => Some w
        end
    end.

(** ** loop (lines 110-180) *)

(** Lines 120 and 149. *)
Definition nextCategory (c : Z) : Z :=
  if c <? categoryCount - 1 then c + 1 else 0.

(** Line 145. *)
Definition prevCategory (c : Z) : Z :=
  if c >? 0 then c - 1 else categoryCount - 1.

(** Lines 159-179, the body of [if (hasChangedCategory)]. *)
Definition rebind (w : World) : World :=
  let w := set_selectedSettingIndex (if selectedSettingIndex w =? 0 then 0 else 1) w in
  match selectedCategoryIndex w with
  | 0 => set_settings displaySettings displaySettingsCount w
  | 1 => set_settings readerSettings readerSettingsCount w
  | 2 => set_settings controlsSettings controlsSettingsCount w
  | 3 => set_settings systemSettings systemSettingsCount w
  | _ => w
  end.

(** Lines 136-157: the navigation chain; returns the new [hasChangedCategory]. *)
Definition navigate (i : Input) (hasChangedCategory : bool) (w : World) : World * bool :=
  let changeTab := heldTime i >? changeTabsMs in
  if upReleased i && changeTab then
    (set_updateRequired true
       (set_selectedCategoryIndex (prevCategory (selectedCategoryIndex w)) w), true)
  else if downReleased i && changeTab then
    (set_updateRequired true
       (set_selectedCategoryIndex (nextCategory (selectedCategoryIndex w)) w), true)
  else if upReleased i || leftReleased i then
    (set_updateRequired true
       (set_selectedSettingIndex
          (if selectedSettingIndex w >? 0 then selectedSettingIndex w - 1 else settingsCount w) w),
     hasChangedCategory)
  else if rightReleased i || downReleased i then
    (set_updateRequired true
       (set_selectedSettingIndex
          (if selectedSettingIndex w <? settingsCount w then selectedSettingIndex w + 1 else 0) w),
     hasChangedCategory)
  else (w, hasChangedCategory).

(** Lines 130-180: what follows the confirm block. *)
Definition afterConfirm (i : Input) (hasChangedCategory : bool) (w : World) : Outcome :=
  if backPressed i then Home (emit GoHome (emit SaveToFile w))
  else
    let (w1, changed) := navigate i hasChangedCategory w in
    Stay (if changed then rebind w1 else w1).

Definition loop (i : Input) (w : World) : Outcome :=
  match subActivity w with
  | Some _ => Delegated w
  | None =>
      if confirmPressed i then
        if selectedSettingIndex w =? 0 then
          afterConfirm i true
            (set_updateRequired true
               (set_selectedCategoryIndex (nextCategory (selectedCategoryIndex w)) w))
        else
          match toggleCurrentSetting w with
          | Some w1 => Stay (set_updateRequired true w1)
          | None => Undefined
          end
      else afterConfirm i false w
  end.

(** Running [loop] over successive input cycles, as long as the screen stays
    in charge. *)
Fixpoint run (inputs : list Input) (w : World) : Outcome :=
  match inputs with
  | [] => Stay w
  | i :: rest =>
      match loop i w with
      | Stay w1 => run rest w1
      | o => o
      end
  end.

(** ** Fixed tables by category *)

Definition tableOf (c : Z) : list SettingInfo :=
  match c with
  | 0 => displaySettings
  | 1 => readerSettings
  | 2 => controlsSettings
  | _ => systemSettings
  end.

Definition countOf (c : Z) : Z :=
  match c with
  | 0 => displaySettingsCount
  | 1 => readerSettingsCount
  | 2 => controlsSettingsCount
  | _ => systemSettingsCount
  end.

(** A world as [onEnter] finds it: nothing selected yet, every cell zero. *)
Definition blank : World :=
  mkWorld 0 0 [] 0 false None (fun _ => 0) [].

Definition atCategory (c i : Z) (w : World) : World :=
  set_selectedSettingIndex i
    (set_settings (tableOf c) (countOf c) (set_selectedCategoryIndex c w)).

(** ** Well-formed navigation states *)

(** The category index is one of the four, the bound table and count are the
    selected category's, and the setting index is on the tab row or an item. *)
Definition inv (w : World) : Prop :=
  0 <= selectedCategoryIndex w <= 3 /\
  settingsList w = tableOf (selectedCategoryIndex w) /\
  settingsCount w = countOf (selectedCategoryIndex w) /\
  0 <= selectedSettingIndex w <= settingsCount w.

(** The setting index focuses item [d] of the bound table. *)
Definition focused (w : World) (d : SettingInfo) : Prop :=
  1 <= selectedSettingIndex w <= settingsCount w /\
  nth_error (settingsList w) (Z.to_nat (selectedSettingIndex w - 1)) = Some d.

(** An outcome respects the invariant: a screen that stays in charge, or has
    delegated the cycle, is well formed, and the cycle has not left the
    defined behaviour.  After [onGoHome()] the screen is gone and nothing is
    asked of it. *)
Definition keeps_inv (o : Outcome) : Prop :=
  match o with
  | Stay w' => inv w'
  | Delegated w' => inv w'
  | Home _ => True
  | Undefined => False
  end.

(** A descriptor on which [toggleCurrentSetting] is defined and mutates:
    bound field present, and for an Enum a label count the [uint8_t] cast
    keeps. *)
Definition mutable (d : SettingInfo) : bool :=
  match type d, valuePtr d with
  | ACTION, _ => false
  | ENUM, Some _ =>
      (1 <=? Z.of_nat (List.length (enumValues d))) &&
      (Z.of_nat (List.length (enumValues d)) <=? 255)
  | _, Some _ => true
  | _, None => false
  end.

Definition tableEntry_ok (d : SettingInfo) : bool :=
  match type d with
  | ACTION => true
  | _ => mutable d
  end.

(** ** Statements of the navigation rules *)

(** A cycle of plain directional navigation: neither Confirm nor Back, and no
    Up or Down release that qualifies as the category-change gesture. *)
Definition plainDirectional (i : Input) : bool :=
  negb (confirmPressed i) && negb (backPressed i) &&
  negb ((upReleased i || downReleased i) && (heldTime i >? changeTabsMs)).

(** One move on the ring of size [N + 1] made of the tab row and the [N]
    items: Up or Left one back, Down or Right one forward. *)
Definition ringStep (N : Z) (i : Input) (k : Z) : Z :=
  if upReleased i || leftReleased i then (k - 1) mod (N + 1)
  else if rightReleased i || downReleased i then (k + 1) mod (N + 1)
  else k.

(** The precedence rule in the spec's words: the first matching rule of
    confirm, back, category-change gesture, directional navigation fires, and
    no rule after it.  To be compared with [loop]. *)
Definition firstMatch (i : Input) (w : World) : Outcome :=
  match subActivity w with
  | Some _ => Delegated w
  | None =>
      if confirmPressed i then
        if selectedSettingIndex w =? 0 then
          Stay (rebind (set_updateRequired true
                          (set_selectedCategoryIndex (nextCategory (selectedCategoryIndex w)) w)))
        else
          match toggleCurrentSetting w with
          | Some w1 => Stay (set_updateRequired true w1)
          | None => Undefined
          end
      else if backPressed i then Home (emit GoHome (emit SaveToFile w))
      else
        let (w1, changed) := navigate i false w in
        Stay (if changed then rebind w1 else w1)
  end.

(** The screen [w'] shows category [c'] after a category change from [w]:
    table and count rebound, focus on the tab row if it was there and on the
    first item otherwise, redraw pending, settings and collaborators
    untouched. *)
Definition switchedTo (c' : Z) (w w' : World) : Prop :=
  selectedCategoryIndex w' = c' /\
  settingsList w' = tableOf c' /\
  settingsCount w' = countOf c' /\
  selectedSettingIndex w' = (if selectedSettingIndex w =? 0 then 0 else 1) /\
  updateRequired w' = true /\
  subActivity w' = subActivity w /\
  SETTINGS w' = SETTINGS w /\
  events w' = events w.

(** Some directional button was released in this cycle. *)
Definition anyReleased (i : Input) : bool :=
  upReleased i || downReleased i || leftReleased i || rightReleased i.

(** [n] confirmations of the focused item in a row. *)
Fixpoint confirmN (n : nat) (w : World) : option World :=
  match n with
  | O => Some w
  | S n' =>
      match toggleCurrentSetting w with
      | Some w1 => confirmN n' w1
      | None => None
      end
  end.

(** A world whose bound table is the single descriptor [d], focused, with the
    cell of field [p] holding [v]. *)
Definition single (d : SettingInfo) (p : Field) (v : Z) : World :=
  mkWorld 0 1 [d] 1 false None (fun q => if Field_eq_dec q p then v else 0) [].

(** ** Statements of the mutation rules *)

(** The Enum rule as the spec words it, for the focused descriptor [d] bound
    to [p], with [k] labels and current value [v]: one confirmation gives
    [(v + 1) mod k], again a label index, and [k] confirmations give [v]
    back. *)
Definition enumCycle (w : World) (d : SettingInfo) (p : Field) : Prop :=
  let k := Z.of_nat (List.length (enumValues d)) in
  let v := to_uint8 (SETTINGS w p) in
  exists w1 wk,
    toggleCurrentSetting w = Some w1 /\
    to_uint8 (SETTINGS w1 p) = (v + 1) mod k /\
    0 <= to_uint8 (SETTINGS w1 p) < k /\
    confirmN (List.length (enumValues d)) w = Some wk /\
    to_uint8 (SETTINGS wk p) = v.

(** The Value rule as the spec words it, for the focused descriptor [d] bound
    to [p], with current value [v]: one confirmation gives [min] when
    [v + step > max] and [v + step] otherwise, no number of confirmations
    gives a value above [max], and some positive number of them gives
    exactly [min]. *)
Definition valueSawtooth (w : World) (d : SettingInfo) (p : Field) : Prop :=
  let r := valueRange d in
  let v := to_int8 (SETTINGS w p) in
  (exists w1,
     toggleCurrentSetting w = Some w1 /\
     to_int8 (SETTINGS w1 p) = (if v + step r >? max r then min r else v + step r)) /\
  (forall n, exists wn,
     confirmN n w = Some wn /\ to_int8 (SETTINGS wn p) <= max r) /\
  (exists n wn,
     (0 < n)%nat /\ confirmN n w = Some wn /\ to_int8 (SETTINGS wn p) = min r).

(** The cell a confirmation writes for descriptor [d] over the cell [cell]. *)
Definition newCell (d : SettingInfo) (cell : Z) : Z :=
  match type d with
  | TOGGLE => of_bool (negb (to_bool cell))
  | ENUM => (to_uint8 cell + 1) mod to_uint8 (Z.of_nat (List.length (enumValues d)))
  | VALUE =>
      if to_int8 cell + step (valueRange d) >? max (valueRange d)
      then min (valueRange d)
      else to_int8 cell + step (valueRange d)
  | ACTION => cell
  end.

(** Descriptors outside the fixed tables, for the edges of the rules. *)
Definition enum257 : SettingInfo := Enum "Wide" sleepScreen (repeat "x" 257).
Definition enum256 : SettingInfo := Enum "Full" sleepScreen (repeat "x" 256).
Definition valueStep0 : SettingInfo := Value "Still" screenMargin (mkRange 5 40 0).
Definition valueWide : SettingInfo := Value "Far" screenMargin (mkRange 0 200 10).
Definition screenMarginInfo : SettingInfo := Value "Screen Margin" screenMargin (mkRange 5 40 5).
Definition toggleUnbound : SettingInfo := mkSetting "Loose" TOGGLE None [] (mkRange 0 0 0).
Definition actionUnknown : SettingInfo := Action "Factory Reset".

(** ** render (lines 265-316)

    [render] is [const]: it reads the screen and hands the drawing
    primitives the arguments below.  Geometry, the version text and the
    button hints come from the theme and the input mapper and do not depend
    on the members modelled here. *)

(** [std::to_string] on an [int]. *)
Definition to_string (z : Z) : string := NilZero.string_of_int (Z.to_int z).

(** Modelled from the spec: [TabInfo] is declared with the theme components,
    which are not among the sources; the spec gives a tab a label and an
    is-active flag, in the order of the initializer [{categoryNames[i],
    selectedCategoryIndex == i}]. *)
Record TabInfo : Set := mkTab { tabLabel : string; tabActive : bool }.

(** Lines 275-279: one tab per category. *)
Definition renderTabs (w : World) : list TabInfo :=
  map (fun i => mkTab (nth i categoryNames "") (selectedCategoryIndex w =? Z.of_nat i))
      (seq 0 (Z.to_nat categoryCount)).

(** Line 281: the flag handed to [drawTabBar]. *)
Definition tabBarSelected (w : World) : bool := selectedSettingIndex w =? 0.

(** Line 288: the selected index handed to [drawList]. *)
Definition listSelected (w : World) : Z := selectedSettingIndex w - 1.

(** Line 288: the row-name callback.  [None] is a read outside the table
    [settingsList] points at. *)
Definition rowName (w : World) (index : Z) : option string :=
  if index <? 0 then None
  else option_map name (nth_error (settingsList w) (Z.to_nat index)).

(** Lines 290-303: the row-value callback.  [None] is a read outside the
    table or outside the labels of an Enum.  The Value text prints the field
    with no conversion of its own, so it depends on the declared type of the
    field, which CrossPointSettings.h holds: [declared] is the integer that
    type gives for a cell. *)
Definition rowValue (declared : Z -> Z) (w : World) (i : Z) : option string :=
  if i <? 0 then None
  else
    match nth_error (settingsList w) (Z.to_nat i) with
    | None => None
    | Some setting =>
        match type setting, valuePtr setting with
        | TOGGLE, Some p =>
            let value := to_bool (SETTINGS w p) in
            Some (if value then "ON" else "OFF")
        | ENUM, Some p =>
            let value := to_uint8 (SETTINGS w p) in
            nth_error (enumValues setting) (Z.to_nat value)
        | VALUE, Some p => Some (to_string (declared (SETTINGS w p)))
        | _, _ => Some ""
        end
    end.

(** ** displayTaskLoop (lines 253-263) *)

(** What the display task calls during one turn of its body.  [render()] is
    [const]; it is recorded with the state it reads. *)
Inductive DisplayCall : Set :=
| DisplayTake                     (* xSemaphoreTake(renderingMutex, portMAX_DELAY) *)
| DisplayRender (seen : World)    (* render() *)
| DisplayGive.                    (* xSemaphoreGive(renderingMutex) *)

(** One turn of the [while (true)] body (the closing [vTaskDelay] apart):
    the state it leaves and the calls it made, in order.  The turn is taken
    as a whole: how it interleaves with a running [loop] is not part of this
    model. *)
Definition displayTaskTurn (w : World) : World * list DisplayCall :=
  if updateRequired w && negb (match subActivity w with Some _ => true | None => false end)
  then
    let w1 := set_updateRequired false w in
    (w1, [DisplayTake; DisplayRender w1; DisplayGive])
  else (w, []).

(** What a sub-screen can do to this screen while it runs: it is handed the
    renderer, the input mapper and the completion callback, so apart from
    that callback it reaches only the global [SETTINGS] and the
    collaborators.  [subScreenRan s es] is the world after it wrote the
    store [s] and made the calls [es]. *)
Definition subScreenRan (s : Store) (es : list Event) (w : World) : World :=
  mkWorld (selectedCategoryIndex w) (selectedSettingIndex w) (settingsList w)
          (settingsCount w) (updateRequired w) (subActivity w) s
          (events w ++ es).

(** ** Statements about the wider screen *)

(** The four tables in category order. *)
Definition allSettings : list SettingInfo :=
  (displaySettings ++ readerSettings ++ controlsSettings ++ systemSettings)%list.

(** Every Enum of the tables holds an index into its own labels. *)
Definition labelsValid (s : Store) : bool :=
  forallb (fun d =>
             match type d, valuePtr d with
             | ENUM, Some p => to_uint8 (s p) <? Z.of_nat (List.length (enumValues d))
             | _, _ => true
             end) allSettings.

(** A plain cycle that moves the focus forward: Right or Down, not Up or
    Left. *)
Definition plainForward (i : Input) : bool :=
  plainDirectional i && negb (upReleased i || leftReleased i) &&
  (rightReleased i || downReleased i).

(** Confirm reaches [toggleCurrentSetting] in this cycle. *)
Definition confirmsItem (i : Input) (w : World) : bool :=
  confirmPressed i && negb (selectedSettingIndex w =? 0).

(** The category-change gesture of the navigation chain. *)
Definition isGesture (i : Input) : bool :=
  (upReleased i || downReleased i) && (heldTime i >? changeTabsMs).

Definition confirmOnly : Input := mkInput true false false false false false 0.
Definition holdUp (h : Z) : Input := mkInput false false true false false false h.
Definition holdDown (h : Z) : Input := mkInput false false false true false false h.

(** ** Conversions *)

Lemma to_uint8_range z : 0 <= to_uint8 z < 256.
Proof. unfold to_uint8. apply Z.mod_pos_bound. lia. Qed.

Lemma to_uint8_small z : 0 <= z < 256 -> to_uint8 z = z.
Proof. intros H. unfold to_uint8. apply Z.mod_small. exact H. Qed.

Lemma to_uint8_idem z : to_uint8 (to_uint8 z) = to_uint8 z.
Proof. apply to_uint8_small, to_uint8_range. Qed.

Lemma to_int8_range z : -128 <= to_int8 z <= 127.
Proof.
  unfold to_int8. pose proof (Z.mod_pos_bound z 256 ltac:(lia)) as H.
  cbv zeta. destruct (Z.ltb_spec (z mod 256) 128); lia.
Qed.

Lemma to_int8_of_uint8 z : -128 <= z <= 127 -> to_int8 (to_uint8 z) = z.
Proof.
  intros H. unfold to_int8, to_uint8. cbv zeta. rewrite Z.mod_mod by lia.
  destruct (Z_lt_dec z 0) as [Hn | Hp].
  - replace (z mod 256) with (z + 256).
    + destruct (Z.ltb_spec (z + 256) 128); lia.
    + apply Z.mod_unique with (q := -1); lia.
  - rewrite Z.mod_small by lia. destruct (Z.ltb_spec z 128); lia.
Qed.

Lemma to_bool_of_bool b : to_bool (to_uint8 (of_bool b)) = b.
Proof. destruct b; reflexivity. Qed.

Lemma of_bool_to_bool z : z = 0 \/ z = 1 -> of_bool (to_bool z) = z.
Proof. intros [-> | ->]; reflexivity. Qed.

(** ** The store *)

Lemma assign_same s p x : assign s p x p = to_uint8 x.
Proof. unfold assign. destruct (Field_eq_dec p p); congruence. Qed.

Lemma assign_other s p x q : q <> p -> assign s p x q = s q.
Proof. unfold assign. destruct (Field_eq_dec q p); congruence. Qed.

(** ** toggleCurrentSetting: one equation per branch *)

Section Toggle.
Variable w : World.
Variable d : SettingInfo.
Hypothesis Hfocus : focused w d.

Lemma focused_in_bounds :
  (selectedSettingIndex w - 1 <? 0) || (selectedSettingIndex w - 1 >=? settingsCount w) = false.
Proof.
  destruct Hfocus as [Hi _]. apply orb_false_iff. split.
  - apply Z.ltb_ge. lia.
  - rewrite Z.geb_leb. apply Z.leb_gt. lia.
Qed.

Lemma toggle_TOGGLE p :
  type d = TOGGLE -> valuePtr d = Some p ->
  toggleCurrentSetting w =
  Some (emit SaveToFile
          (set_SETTINGS (assign (SETTINGS w) p (of_bool (negb (to_bool (SETTINGS w p))))) w)).
Proof.
  intros Ht Hp. unfold toggleCurrentSetting. cbv zeta.
  rewrite focused_in_bounds. destruct Hfocus as [_ ->]. rewrite Ht, Hp. reflexivity.
Qed.

Lemma toggle_ENUM p :
  type d = ENUM -> valuePtr d = Some p ->
  to_uint8 (Z.of_nat (List.length (enumValues d))) <> 0 ->
  toggleCurrentSetting w =
  Some (emit SaveToFile
          (set_SETTINGS
             (assign (SETTINGS w) p
                ((to_uint8 (SETTINGS w p) + 1)
                   mod to_uint8 (Z.of_nat (List.length (enumValues d))))) w)).
Proof.
  intros Ht Hp Hk. unfold toggleCurrentSetting. cbv zeta.
  rewrite focused_in_bounds. destruct Hfocus as [_ ->]. rewrite Ht, Hp.
  apply Z.eqb_neq in Hk. rewrite Hk. reflexivity.
Qed.

Lemma toggle_VALUE p :
  type d = VALUE -> valuePtr d = Some p ->
  toggleCurrentSetting w =
  Some (emit SaveToFile
          (set_SETTINGS
             (assign (SETTINGS w) p
                (if to_int8 (SETTINGS w p) + step (valueRange d) >? max (valueRange d)
                 then min (valueRange d)
                 else to_int8 (SETTINGS w p) + step (valueRange d))) w)).
Proof.
  intros Ht Hp. unfold toggleCurrentSetting. cbv zeta.
  rewrite focused_in_bounds. destruct Hfocus as [_ ->]. rewrite Ht, Hp.
  destruct (to_int8 (SETTINGS w p) + step (valueRange d) >? max (valueRange d)); reflexivity.
Qed.

Lemma toggle_unbound :
  type d <> ACTION -> valuePtr d = None -> toggleCurrentSetting w = Some w.
Proof.
  intros Ht Hp. unfold toggleCurrentSetting. cbv zeta.
  rewrite focused_in_bounds. destruct Hfocus as [_ ->]. rewrite Hp.
  destruct (type d); congruence.
Qed.

Lemma toggle_ACTION :
  type d = ACTION ->
  toggleCurrentSetting w =
  Some (emit SaveToFile
          match actionFor (name d) with
          | Some a => launch a w
          | None => w
          end).
Proof.
  intros Ht. unfold toggleCurrentSetting. cbv zeta.
  rewrite focused_in_bounds. destruct Hfocus as [_ ->]. rewrite Ht.
  destruct (actionFor (name d)); reflexivity.
Qed.
End Toggle.

Lemma toggle_out_of_bounds w :
  selectedSettingIndex w - 1 < 0 \/ selectedSettingIndex w - 1 >= settingsCount w ->
  toggleCurrentSetting w = Some w.
Proof.
  intros H. unfold toggleCurrentSetting. cbv zeta.
  replace ((selectedSettingIndex w - 1 <? 0) || (selectedSettingIndex w - 1 >=? settingsCount w))
    with true; [reflexivity|].
  symmetry. apply orb_true_iff. destruct H as [H | H].
  - left. apply Z.ltb_lt. exact H.
  - right. rewrite Z.geb_leb. apply Z.leb_le. lia.
Qed.

(** [toggleCurrentSetting] never touches the selection, the bound table or
    the redraw flag. *)
Lemma toggle_nav w w' :
  toggleCurrentSetting w = Some w' ->
  selectedCategoryIndex w' = selectedCategoryIndex w /\
  selectedSettingIndex w' = selectedSettingIndex w /\
  settingsList w' = settingsList w /\
  settingsCount w' = settingsCount w /\
  updateRequired w' = updateRequired w.
Proof.
  unfold toggleCurrentSetting. cbv zeta.
  destruct ((selectedSettingIndex w - 1 <? 0) || (selectedSettingIndex w - 1 >=? settingsCount w)).
  - intros [= <-]. repeat split.
  - destruct (nth_error (settingsList w) (Z.to_nat (selectedSettingIndex w - 1))) as [d|];
      [|discriminate].
    destruct (type d), (valuePtr d) as [p|];
      repeat match goal with
             | |- context [if ?c then _ else _] => destruct c
             | |- context [match actionFor ?n with _ => _ end] => destruct (actionFor n)
             end;
      intros [= <-]; repeat split.
Qed.

Lemma toggle_focused w w' d :
  toggleCurrentSetting w = Some w' -> focused w d -> focused w' d.
Proof.
  intros H [Hi Hn]. destruct (toggle_nav _ _ H) as (_ & Hs & Hl & Hc & _).
  unfold focused. rewrite Hs, Hl, Hc. split; assumption.
Qed.

(** ** Navigation *)

Lemma nextCategory_mod c : 0 <= c <= 3 -> nextCategory c = (c + 1) mod 4.
Proof.
  intros H. unfold nextCategory, categoryCount.
  assert (c = 0 \/ c = 1 \/ c = 2 \/ c = 3) as [-> | [-> | [-> | ->]]] by lia; reflexivity.
Qed.

Lemma prevCategory_mod c : 0 <= c <= 3 -> prevCategory c = (c - 1) mod 4.
Proof.
  intros H. unfold prevCategory, categoryCount.
  assert (c = 0 \/ c = 1 \/ c = 2 \/ c = 3) as [-> | [-> | [-> | ->]]] by lia; reflexivity.
Qed.

Lemma countOf_pos c : 1 <= countOf c.
Proof. unfold countOf. destruct c as [|[[?|?|]|[?|?|]|]|?]; cbv; discriminate. Qed.

Lemma rebind_spec w :
  0 <= selectedCategoryIndex w <= 3 ->
  rebind w =
  set_settings (tableOf (selectedCategoryIndex w)) (countOf (selectedCategoryIndex w))
    (set_selectedSettingIndex (if selectedSettingIndex w =? 0 then 0 else 1) w).
Proof.
  intros H. unfold rebind. cbv zeta.
  assert (selectedCategoryIndex w = 0 \/ selectedCategoryIndex w = 1 \/
          selectedCategoryIndex w = 2 \/ selectedCategoryIndex w = 3) as Hc by lia.
  destruct w as [c k l n u a s e]. simpl in *.
  destruct Hc as [-> | [-> | [-> | ->]]]; reflexivity.
Qed.

Lemma rebind_inv w : 0 <= selectedCategoryIndex w <= 3 -> inv (rebind w).
Proof.
  intros H. rewrite rebind_spec by exact H.
  destruct w as [c k l n u a s e]. unfold inv. simpl in *.
  repeat split; try lia; pose proof (countOf_pos c); destruct (k =? 0); lia.
Qed.

Lemma back_mod N k : 0 <= k <= N -> (if k >? 0 then k - 1 else N) = (k - 1) mod (N + 1).
Proof.
  intros H. rewrite Z.gtb_ltb. destruct (Z.ltb_spec 0 k).
  - symmetry. apply Z.mod_small. lia.
  - apply Z.mod_unique with (q := -1); lia.
Qed.

Lemma forward_mod N k : 0 <= k <= N -> (if k <? N then k + 1 else 0) = (k + 1) mod (N + 1).
Proof.
  intros H. destruct (Z.ltb_spec k N).
  - symmetry. apply Z.mod_small. lia.
  - apply Z.mod_unique with (q := 1); lia.
Qed.

Lemma ringStep_range N i k : 0 <= k <= N -> 0 <= ringStep N i k <= N.
Proof.
  intros H. unfold ringStep.
  pose proof (Z.mod_pos_bound (k - 1) (N + 1) ltac:(lia)).
  pose proof (Z.mod_pos_bound (k + 1) (N + 1) ltac:(lia)).
  destruct (upReleased i || leftReleased i); [lia|].
  destruct (rightReleased i || downReleased i); lia.
Qed.

(** From the tab row one step back lands on the last item, from the last
    item one step forward lands on the tab row. *)
Lemma ringStep_wraps N i :
  0 <= N ->
  (upReleased i || leftReleased i = true -> ringStep N i 0 = N) /\
  (upReleased i || leftReleased i = false -> rightReleased i || downReleased i = true ->
   ringStep N i N = 0).
Proof.
  intros HN. unfold ringStep. split.
  - intros ->. rewrite <- (back_mod N 0) by lia. reflexivity.
  - intros -> ->. rewrite <- (forward_mod N N) by lia. rewrite Z.ltb_irrefl. reflexivity.
Qed.

(** One plain directional cycle moves the setting index by [ringStep] and
    leaves the rest of the selection alone. *)
Lemma plain_cycle i w :
  subActivity w = None ->
  plainDirectional i = true ->
  0 <= selectedSettingIndex w <= settingsCount w ->
  exists w',
    loop i w = Stay w' /\
    subActivity w' = None /\
    selectedCategoryIndex w' = selectedCategoryIndex w /\
    settingsList w' = settingsList w /\
    settingsCount w' = settingsCount w /\
    SETTINGS w' = SETTINGS w /\
    events w' = events w /\
    selectedSettingIndex w' = ringStep (settingsCount w) i (selectedSettingIndex w).
Proof.
  intros Hsub Hplain Hk.
  unfold plainDirectional in Hplain.
  apply andb_true_iff in Hplain as [Hcb Hg]. apply andb_true_iff in Hcb as [Hc Hb].
  apply negb_true_iff in Hc, Hb, Hg.
  unfold loop, afterConfirm, navigate, ringStep. rewrite Hsub, Hc, Hb. cbv zeta.
  rewrite <- (back_mod _ _ Hk), <- (forward_mod _ _ Hk).
  destruct (upReleased i), (downReleased i), (heldTime i >? changeTabsMs);
    simpl in Hg; try discriminate; simpl;
    destruct (leftReleased i), (rightReleased i); simpl;
    eexists; repeat split; assumption.
Qed.

(** C3: from a state with [N = settingsCount] and the setting index within
    [0, N], any sequence of Up/Down/Left/Right cycles that are not the
    category-change gesture keeps the screen running on the same table, keeps
    the index within [0, N] and moves it on the ring of size [N + 1] (Up or
    Left one back, Down or Right one forward, with the wraps of
    [ringStep_wraps]); with [N = 0] the index stays on the tab row. *)
Theorem directional_ring (inputs : list Input) (w : World)
  (Hsub : subActivity w = None)
  (Hrange : 0 <= selectedSettingIndex w <= settingsCount w)
  (Hplain : forallb plainDirectional inputs = true) :
  exists w',
    run inputs w = Stay w' /\
    selectedCategoryIndex w' = selectedCategoryIndex w /\
    settingsList w' = settingsList w /\
    settingsCount w' = settingsCount w /\
    0 <= selectedSettingIndex w' <= settingsCount w /\
    selectedSettingIndex w' =
      fold_left (fun k i => ringStep (settingsCount w) i k) inputs (selectedSettingIndex w) /\
    (settingsCount w = 0 -> selectedSettingIndex w' = 0).
Proof.
  revert w Hsub Hrange Hplain.
  induction inputs as [|i rest IH]; intros w Hsub Hrange Hplain.
  - exists w. simpl. repeat split; lia.
  - simpl in Hplain. apply andb_true_iff in Hplain as [Hi Hrest].
    destruct (plain_cycle i w Hsub Hi Hrange)
      as (w1 & Hloop & Hsub1 & Hc1 & Hl1 & Hn1 & _ & _ & Hk1).
    pose proof (ringStep_range (settingsCount w) i _ Hrange) as Hr1.
    destruct (IH w1 Hsub1 ltac:(rewrite Hn1, Hk1; exact Hr1) Hrest)
      as (w' & Hrun & Hc & Hl & Hn & Hr & Hfold & Hzero).
    exists w'. simpl. rewrite Hloop.
    rewrite Hn1 in *. rewrite Hk1 in Hfold.
    repeat split; try congruence; try lia.
Qed.

(** The witness: Reader category (nine items), Up from the tab row and then
    twice Down. *)
Lemma directional_ring_witness :
  exists w',
    run [mkInput false false true false false false 0;
         mkInput false false false true false false 0;
         mkInput false false false true false false 700]
        (atCategory 1 0 blank) = Stay w' /\
    selectedSettingIndex w' = 1.
Proof.
  destruct (directional_ring
              [mkInput false false true false false false 0;
               mkInput false false false true false false 0;
               mkInput false false false true false false 700]
              (atCategory 1 0 blank))
    as (w' & Hrun & _ & _ & _ & _ & Hfold & _).
  - reflexivity.
  - simpl. unfold readerSettingsCount. lia.
  - reflexivity.
  - exists w'. split; [exact Hrun | rewrite Hfold; reflexivity].
Defined.

(** ** The fixed tables *)

Lemma table_entries_ok c : forallb tableEntry_ok (tableOf c) = true.
Proof. unfold tableOf. destruct c as [|[[?|?|]|[?|?|]|]|?]; reflexivity. Qed.

Lemma table_length c : Z.of_nat (List.length (tableOf c)) = countOf c.
Proof. unfold tableOf, countOf. destruct c as [|[[?|?|]|[?|?|]|]|?]; reflexivity. Qed.

Lemma inv_focused w :
  inv w -> selectedSettingIndex w <> 0 ->
  exists d, focused w d /\ In d (tableOf (selectedCategoryIndex w)).
Proof.
  intros (_ & Hl & Hn & Hk) Hnz.
  destruct (nth_error (settingsList w) (Z.to_nat (selectedSettingIndex w - 1))) as [d|] eqn:E.
  - exists d. split; [split; [lia | exact E]|].
    rewrite <- Hl. eapply nth_error_In. exact E.
  - apply nth_error_None in E. rewrite Hl in E.
    pose proof (table_length (selectedCategoryIndex w)). lia.
Qed.

Lemma mutable_size d :
  type d = ENUM -> mutable d = true ->
  to_uint8 (Z.of_nat (List.length (enumValues d))) = Z.of_nat (List.length (enumValues d)) /\
  1 <= Z.of_nat (List.length (enumValues d)) <= 255.
Proof.
  unfold mutable. intros ->. destruct (valuePtr d); [|discriminate].
  intros H. apply andb_true_iff in H as [H1 H2].
  apply Z.leb_le in H1, H2. split; [apply to_uint8_small|]; lia.
Qed.

Lemma mutable_bound d : mutable d = true -> exists p, valuePtr d = Some p.
Proof.
  unfold mutable. destruct (type d), (valuePtr d) as [p|]; try discriminate; eauto.
Qed.

Lemma toggle_defined w d :
  focused w d -> tableEntry_ok d = true -> exists w', toggleCurrentSetting w = Some w'.
Proof.
  intros Hf Hok. unfold tableEntry_ok in Hok.
  destruct (type d) eqn:Ht.
  - destruct (mutable_bound d Hok) as [p Hp]. rewrite (toggle_TOGGLE w d Hf p Ht Hp). eauto.
  - destruct (mutable_bound d Hok) as [p Hp].
    destruct (mutable_size d Ht Hok) as [Hs Hr].
    rewrite (toggle_ENUM w d Hf p Ht Hp); [eauto | lia].
  - rewrite (toggle_ACTION w d Hf Ht). eauto.
  - destruct (mutable_bound d Hok) as [p Hp]. rewrite (toggle_VALUE w d Hf p Ht Hp). eauto.
Qed.

(** ** The invariant *)

Lemma nextCategory_range c : 0 <= c <= 3 -> 0 <= nextCategory c <= 3.
Proof. intros H. rewrite nextCategory_mod by exact H. pose proof (Z.mod_pos_bound (c + 1) 4). lia. Qed.

Lemma prevCategory_range c : 0 <= c <= 3 -> 0 <= prevCategory c <= 3.
Proof. intros H. rewrite prevCategory_mod by exact H. pose proof (Z.mod_pos_bound (c - 1) 4). lia. Qed.

Lemma navigate_category i h w :
  0 <= selectedCategoryIndex w <= 3 ->
  0 <= selectedCategoryIndex (fst (navigate i h w)) <= 3.
Proof.
  intros H. unfold navigate. cbv zeta.
  pose proof (nextCategory_range _ H). pose proof (prevCategory_range _ H).
  repeat match goal with
         | |- context [if ?c then _ else _] => destruct c
         end; simpl; assumption.
Qed.

Lemma navigate_keeps_change i w : snd (navigate i true w) = true.
Proof.
  unfold navigate. cbv zeta.
  repeat match goal with
         | |- context [if ?c then _ else _] => destruct c
         end; reflexivity.
Qed.

Lemma navigate_plain_inv i w :
  inv w -> snd (navigate i false w) = false -> inv (fst (navigate i false w)).
Proof.
  intros (Hc & Hl & Hn & Hk). unfold navigate. cbv zeta.
  destruct (upReleased i && (heldTime i >? changeTabsMs)); [discriminate|].
  destruct (downReleased i && (heldTime i >? changeTabsMs)); [discriminate|].
  destruct (upReleased i || leftReleased i).
  - intros _. unfold inv. simpl. repeat split; try assumption; try lia;
      rewrite Z.gtb_ltb; destruct (Z.ltb_spec 0 (selectedSettingIndex w)); lia.
  - destruct (rightReleased i || downReleased i); intros _.
    + unfold inv. simpl. repeat split; try assumption; try lia;
        destruct (Z.ltb_spec (selectedSettingIndex w) (settingsCount w)); lia.
    + unfold inv. simpl. repeat split; try assumption; lia.
Qed.

Lemma afterConfirm_inv i h w :
  0 <= selectedCategoryIndex w <= 3 -> (h = false -> inv w) -> keeps_inv (afterConfirm i h w).
Proof.
  intros Hc Hinv. unfold afterConfirm. destruct (backPressed i); [exact I|].
  destruct (navigate i h w) as [w1 changed] eqn:E.
  pose proof (navigate_category i h w Hc) as Hc1. rewrite E in Hc1. simpl in Hc1.
  destruct changed; simpl.
  - apply rebind_inv. exact Hc1.
  - destruct h.
    + pose proof (navigate_keeps_change i w) as Ht. rewrite E in Ht. discriminate.
    + pose proof (navigate_plain_inv i w (Hinv eq_refl)) as Hp. rewrite E in Hp. apply Hp. reflexivity.
Qed.

Lemma loop_inv i w : inv w -> keeps_inv (loop i w).
Proof.
  intros Hinv. unfold loop. destruct (subActivity w); [exact Hinv|].
  destruct (confirmPressed i).
  - destruct (Z.eqb_spec (selectedSettingIndex w) 0) as [Hz | Hnz].
    + apply afterConfirm_inv; [|discriminate]. simpl.
      apply nextCategory_range. apply Hinv.
    + destruct (inv_focused w Hinv Hnz) as (d & Hf & Hin).
      pose proof (table_entries_ok (selectedCategoryIndex w)) as Hall.
      rewrite forallb_forall in Hall.
      destruct (toggle_defined w d Hf (Hall d Hin)) as [w1 Hw1]. rewrite Hw1. simpl.
      destruct (toggle_nav _ _ Hw1) as (Hc & Hs & Hl & Hn & _).
      destruct Hinv as (H1 & H2 & H3 & H4).
      unfold inv. simpl. rewrite Hc, Hs, Hl, Hn. repeat split; assumption || lia.
  - apply afterConfirm_inv; [apply Hinv | intros _; exact Hinv].
Qed.

(** The invariant on the cycles that do not end in [onGoHome()]: [onEnter]
    establishes, and every such input cycle and the completion callback of a
    sub-screen preserve, that the category index is in 0..3, the bound table
    and count are the selected category's (7, 9, 4, 5 entries) and the
    setting index is within [0, count]; no cycle from such a state leaves the
    defined behaviour. *)
Theorem screen_invariant (i : Input) (w : World) :
  inv (onEnter w) /\
  (inv w -> keeps_inv (loop i w)) /\
  (inv w -> inv (onSubActivityComplete w)) /\
  (countOf 0 = 7 /\ countOf 1 = 9 /\ countOf 2 = 4 /\ countOf 3 = 5).
Proof.
  split; [|split; [|split]].
  - unfold inv, onEnter. simpl. unfold displaySettingsCount. repeat split; lia.
  - apply loop_inv.
  - intros H. exact H.
  - repeat split.
Qed.

(** The witness: a held Down from the ninth item of Reader lands on the
    first item of Controls, within its four. *)
Lemma screen_invariant_witness :
  inv (atCategory 1 9 blank) /\
  keeps_inv (loop (mkInput false false false true false false 900) (atCategory 1 9 blank)) /\
  loop (mkInput false false false true false false 900) (atCategory 1 9 blank) =
    Stay (set_updateRequired true (atCategory 2 1 blank)).
Proof.
  assert (inv (atCategory 1 9 blank)) as H.
  { unfold inv. simpl. unfold readerSettingsCount. repeat split; lia. }
  split; [exact H|]. split.
  - exact (proj1 (proj2 (screen_invariant
                           (mkInput false false false true false false 900)
                           (atCategory 1 9 blank))) H).
  - reflexivity.
Defined.

(** C4, at the input where it fails: Confirm on the tab row of Reader in a
    cycle that also reports Back.  The state before satisfies the invariant;
    line 120 advances the category index to Controls, the Back block returns
    before the rebinding of lines 159-179, and the cycle ends with the
    Reader table and its count of 9 still bound under category index 2, whose
    table has 4 entries. *)
Theorem confirm_back_breaks_invariant :
  inv (atCategory 1 0 blank) /\
  exists w1,
    loop (mkInput true true false false false false 0) (atCategory 1 0 blank) = Home w1 /\
    selectedCategoryIndex w1 = 2 /\
    settingsList w1 = readerSettings /\
    settingsCount w1 = 9 /\
    countOf (selectedCategoryIndex w1) = 4 /\
    ~ inv w1.
Proof.
  split.
  - unfold inv. simpl. unfold readerSettingsCount. repeat split; lia.
  - eexists. split; [reflexivity|]. repeat split.
    intros (_ & _ & Hcount & _). discriminate Hcount.
Qed.

(** ** Category changes *)

Lemma gesture_up i w :
  subActivity w = None -> confirmPressed i = false -> backPressed i = false ->
  upReleased i = true -> heldTime i > 700 ->
  loop i w =
  Stay (rebind (set_updateRequired true
                  (set_selectedCategoryIndex (prevCategory (selectedCategoryIndex w)) w))).
Proof.
  intros Hs Hc Hb Hu Hh. unfold loop, afterConfirm, navigate. rewrite Hs, Hc, Hb, Hu. cbv zeta.
  replace (heldTime i >? changeTabsMs) with true; [reflexivity|].
  symmetry. rewrite Z.gtb_ltb. apply Z.ltb_lt. unfold changeTabsMs. lia.
Qed.

Lemma gesture_down i w :
  subActivity w = None -> confirmPressed i = false -> backPressed i = false ->
  upReleased i = false -> downReleased i = true -> heldTime i > 700 ->
  loop i w =
  Stay (rebind (set_updateRequired true
                  (set_selectedCategoryIndex (nextCategory (selectedCategoryIndex w)) w))).
Proof.
  intros Hs Hc Hb Hu Hd Hh. unfold loop, afterConfirm, navigate. rewrite Hs, Hc, Hb, Hu, Hd. cbv zeta.
  replace (heldTime i >? changeTabsMs) with true; [reflexivity|].
  symmetry. rewrite Z.gtb_ltb. apply Z.ltb_lt. unfold changeTabsMs. lia.
Qed.

Lemma no_gesture i w :
  subActivity w = None -> confirmPressed i = false -> backPressed i = false ->
  heldTime i <= 700 ->
  exists w', loop i w = Stay w' /\
             selectedCategoryIndex w' = selectedCategoryIndex w /\
             settingsList w' = settingsList w /\
             settingsCount w' = settingsCount w.
Proof.
  intros Hs Hc Hb Hh. unfold loop, afterConfirm, navigate. rewrite Hs, Hc, Hb. cbv zeta.
  replace (heldTime i >? changeTabsMs) with false.
  - rewrite !andb_false_r.
    destruct (upReleased i || leftReleased i); [|destruct (rightReleased i || downReleased i)];
      eexists; repeat split.
  - symmetry. rewrite Z.gtb_ltb. apply Z.ltb_ge. unfold changeTabsMs. lia.
Qed.

Lemma rebind_switchedTo c' w :
  0 <= c' <= 3 ->
  switchedTo c' w (rebind (set_updateRequired true (set_selectedCategoryIndex c' w))).
Proof.
  intros H. rewrite rebind_spec by exact H. unfold switchedTo. simpl. repeat split.
Qed.

(** C5: in a cycle that reaches the navigation chain (no sub-screen, neither
    Confirm nor Back), an Up release held longer than 700 ms moves the
    category one back on the ring of four and a Down release held longer
    than 700 ms one forward; table and count rebind and the setting index
    becomes 0 from the tab row and 1 from any item, whatever the other
    directional buttons report, so plain item navigation does not happen.
    A hold of 700 ms or less leaves the category alone. *)
Theorem hold_changes_category (i : Input) (w : World)
  (Hsub : subActivity w = None)
  (Hconfirm : confirmPressed i = false)
  (Hback : backPressed i = false)
  (Hcat : 0 <= selectedCategoryIndex w <= 3) :
  (upReleased i = true -> heldTime i > 700 ->
   exists w', loop i w = Stay w' /\
              switchedTo ((selectedCategoryIndex w - 1) mod 4) w w') /\
  (upReleased i = false -> downReleased i = true -> heldTime i > 700 ->
   exists w', loop i w = Stay w' /\
              switchedTo ((selectedCategoryIndex w + 1) mod 4) w w') /\
  (heldTime i <= 700 ->
   exists w', loop i w = Stay w' /\
              selectedCategoryIndex w' = selectedCategoryIndex w /\
              settingsList w' = settingsList w /\
              settingsCount w' = settingsCount w).
Proof.
  split; [|split].
  - intros Hu Hh. eexists. split; [apply gesture_up; assumption|].
    rewrite <- prevCategory_mod by exact Hcat.
    apply rebind_switchedTo, prevCategory_range, Hcat.
  - intros Hu Hd Hh. eexists. split; [apply gesture_down; assumption|].
    rewrite <- nextCategory_mod by exact Hcat.
    apply rebind_switchedTo, nextCategory_range, Hcat.
  - intros Hh. apply no_gesture; assumption.
Qed.

(** The witness: Up held 701 ms on the third item of Display goes to System,
    first item; Down held 701 ms on the tab row of System goes to Display,
    tab row. *)
Lemma hold_changes_category_witness :
  (exists w', loop (mkInput false false true false false false 701) (atCategory 0 3 blank) = Stay w' /\
              selectedCategoryIndex w' = 3 /\ settingsCount w' = 5 /\ selectedSettingIndex w' = 1) /\
  (exists w', loop (mkInput false false false true false false 701) (atCategory 3 0 blank) = Stay w' /\
              selectedCategoryIndex w' = 0 /\ settingsCount w' = 7 /\ selectedSettingIndex w' = 0).
Proof.
  split.
  - destruct (hold_changes_category (mkInput false false true false false false 701)
                (atCategory 0 3 blank) eq_refl eq_refl eq_refl) as (Hup & _ & _).
    + simpl. lia.
    + destruct (Hup eq_refl) as (w' & Hl & Hc & _ & Hn & Hk & _).
      * simpl. lia.
      * exists w'. repeat split; assumption.
  - destruct (hold_changes_category (mkInput false false false true false false 701)
                (atCategory 3 0 blank) eq_refl eq_refl eq_refl) as (_ & Hdown & _).
    + simpl. lia.
    + destruct (Hdown eq_refl eq_refl) as (w' & Hl & Hc & _ & Hn & Hk & _).
      * simpl. lia.
      * exists w'. repeat split; assumption.
Defined.

(** Confirm on the tab row in a cycle with no other button event: the
    category advances by one on the ring of four, the table rebinds and the
    focus stays on the tab row. *)
Lemma confirm_on_tab_alone i w :
  subActivity w = None -> confirmPressed i = true -> selectedSettingIndex w = 0 ->
  backPressed i = false -> anyReleased i = false ->
  0 <= selectedCategoryIndex w <= 3 ->
  exists w', loop i w = Stay w' /\
             switchedTo ((selectedCategoryIndex w + 1) mod 4) w w' /\
             selectedSettingIndex w' = 0.
Proof.
  intros Hs Hc Hk Hb Hr Hcat. unfold anyReleased in Hr.
  apply orb_false_iff in Hr as [Hr Hright]. apply orb_false_iff in Hr as [Hr Hleft].
  apply orb_false_iff in Hr as [Hup Hdown].
  unfold loop, afterConfirm, navigate. rewrite Hs, Hc, Hk, Hb, Hup, Hdown, Hleft, Hright.
  simpl. eexists. split; [reflexivity|].
  rewrite <- nextCategory_mod by exact Hcat.
  pose proof (rebind_switchedTo (nextCategory (selectedCategoryIndex w)) w
                (nextCategory_range _ Hcat)) as Hsw.
  split; [exact Hsw|]. destruct Hsw as (_ & _ & _ & -> & _). rewrite Hk. reflexivity.
Qed.

(** [loop] and the first-match reading agree on every cycle except a Confirm
    on the tab row that comes with a Back press or a directional release. *)
Lemma loop_firstMatch i w :
  confirmPressed i && (selectedSettingIndex w =? 0) && (backPressed i || anyReleased i) = false ->
  loop i w = firstMatch i w.
Proof.
  intros H. unfold loop, firstMatch. destruct (subActivity w); [reflexivity|].
  destruct (confirmPressed i); [|reflexivity].
  destruct (selectedSettingIndex w =? 0); [|reflexivity].
  simpl in H. apply orb_false_iff in H as [Hb Hr]. unfold anyReleased in Hr.
  apply orb_false_iff in Hr as [Hr Hright]. apply orb_false_iff in Hr as [Hr Hleft].
  apply orb_false_iff in Hr as [Hup Hdown].
  unfold afterConfirm, navigate. rewrite Hb, Hup, Hdown, Hleft, Hright. reflexivity.
Qed.

(** C1, at the input where it fails: Confirm on the tab row of System in a
    cycle that also reports a short Down release.  The category becomes
    Display with its seven descriptors bound, and the setting index ends on
    1, the first item, not on the tab row. *)
Theorem confirm_on_tab_with_down :
  exists w',
    loop (mkInput true false false true false false 0) (atCategory 3 0 blank) = Stay w' /\
    selectedCategoryIndex w' = 0 /\
    settingsList w' = displaySettings /\
    settingsCount w' = 7 /\
    selectedSettingIndex w' = 1.
Proof. eexists. split; [reflexivity|]. repeat split. Qed.

(** C2, at inputs where it fails, from the state [onEnter] leaves (Display,
    tab row).  Confirm with Back: the category index advances and the screen
    saves and goes home.  Confirm with a short Down release: the category
    advances and the focus moves to the first item.  Confirm with a held Down
    release: the category advances twice.  In each the confirm rule and a
    later rule both take effect, and [loop] differs from [firstMatch]. *)
Theorem confirm_falls_through :
  (exists w1,
     loop (mkInput true true false false false false 0) (onEnter blank) = Home w1 /\
     selectedCategoryIndex w1 = 1 /\ settingsList w1 = displaySettings /\
     events w1 = [SaveToFile; GoHome]) /\
  (exists w2,
     loop (mkInput true false false true false false 0) (onEnter blank) = Stay w2 /\
     selectedCategoryIndex w2 = 1 /\ selectedSettingIndex w2 = 1) /\
  (exists w3,
     loop (mkInput true false false true false false 701) (onEnter blank) = Stay w3 /\
     selectedCategoryIndex w3 = 2) /\
  (exists w4,
     firstMatch (mkInput true false false true false false 0) (onEnter blank) = Stay w4 /\
     selectedCategoryIndex w4 = 1 /\ selectedSettingIndex w4 = 0) /\
  loop (mkInput true false false true false false 0) (onEnter blank) <>
  firstMatch (mkInput true false false true false false 0) (onEnter blank).
Proof.
  repeat split; try (eexists; split; [reflexivity|]; repeat split).
  intros H. apply (f_equal (fun o => match o with Stay w => selectedSettingIndex w | _ => 0 end)) in H.
  discriminate H.
Qed.

(** ** Value mutation *)

Lemma SETTINGS_assigned w p x :
  SETTINGS (emit SaveToFile (set_SETTINGS (assign (SETTINGS w) p x) w)) p = to_uint8 x.
Proof. simpl. apply assign_same. Qed.

Lemma SETTINGS_kept w p x q :
  q <> p -> SETTINGS (emit SaveToFile (set_SETTINGS (assign (SETTINGS w) p x) w)) q = SETTINGS w q.
Proof. intros H. simpl. apply assign_other. exact H. Qed.

(** C8: confirming a focused Toggle bound to [p] negates the boolean read
    from [p]; a second confirmation gives the original boolean back (and the
    original cell when it held 0 or 1); no other field changes. *)
Theorem toggle_negates (w : World) (d : SettingInfo) (p : Field)
  (Hfocus : focused w d)
  (Htype : type d = TOGGLE)
  (Hptr : valuePtr d = Some p) :
  exists w1 w2,
    toggleCurrentSetting w = Some w1 /\
    to_bool (SETTINGS w1 p) = negb (to_bool (SETTINGS w p)) /\
    toggleCurrentSetting w1 = Some w2 /\
    to_bool (SETTINGS w2 p) = to_bool (SETTINGS w p) /\
    (SETTINGS w p = 0 \/ SETTINGS w p = 1 -> SETTINGS w2 p = SETTINGS w p) /\
    (forall q, q <> p -> SETTINGS w1 q = SETTINGS w q /\ SETTINGS w2 q = SETTINGS w q).
Proof.
  pose proof (toggle_TOGGLE w d Hfocus p Htype Hptr) as H1.
  pose proof (toggle_focused _ _ d H1 Hfocus) as Hfocus1.
  pose proof (toggle_TOGGLE _ d Hfocus1 p Htype Hptr) as H2.
  eexists. eexists. split; [exact H1|].
  split; [rewrite SETTINGS_assigned; apply to_bool_of_bool|].
  split; [exact H2|].
  split; [|split].
  - rewrite !SETTINGS_assigned, !to_bool_of_bool. apply negb_involutive.
  - intros H01. rewrite !SETTINGS_assigned, !to_bool_of_bool, negb_involutive.
    destruct H01 as [-> | ->]; reflexivity.
  - intros q Hq. rewrite !SETTINGS_kept by exact Hq. split; reflexivity.
Qed.

(** The witness: "Hyphenation", sixth item of Reader, off. *)
Lemma toggle_negates_witness :
  exists w1 w2,
    toggleCurrentSetting (atCategory 1 6 blank) = Some w1 /\
    to_bool (SETTINGS w1 hyphenationEnabled) = true /\
    toggleCurrentSetting w1 = Some w2 /\
    to_bool (SETTINGS w2 hyphenationEnabled) = false.
Proof.
  destruct (toggle_negates (atCategory 1 6 blank)
              (Toggle "Hyphenation" hyphenationEnabled) hyphenationEnabled)
    as (w1 & w2 & H1 & Hb1 & H2 & Hb2 & _).
  - split; [simpl; unfold readerSettingsCount; lia | reflexivity].
  - reflexivity.
  - reflexivity.
  - exists w1, w2. repeat split; assumption.
Defined.

Section EnumRule.
Variable d : SettingInfo.
Variable p : Field.
Hypothesis Htype : type d = ENUM.
Hypothesis Hptr : valuePtr d = Some p.
Let k := Z.of_nat (List.length (enumValues d)).
Hypothesis Hk : 1 <= k <= 255.

Lemma enum_step w :
  focused w d ->
  exists w1,
    toggleCurrentSetting w = Some w1 /\
    to_uint8 (SETTINGS w1 p) = (to_uint8 (SETTINGS w p) + 1) mod k /\
    0 <= to_uint8 (SETTINGS w1 p) < k.
Proof.
  intros Hf.
  assert (to_uint8 k = k) as Hcast by (apply to_uint8_small; lia).
  pose proof (toggle_ENUM w d Hf p Htype Hptr) as H1. fold k in H1.
  rewrite Hcast in H1. specialize (H1 ltac:(lia)).
  pose proof (Z.mod_pos_bound (to_uint8 (SETTINGS w p) + 1) k ltac:(lia)) as Hb.
  eexists. split; [exact H1|].
  rewrite SETTINGS_assigned, to_uint8_idem, to_uint8_small by lia.
  split; [reflexivity | exact Hb].
Qed.

Lemma enum_iter n w :
  focused w d ->
  to_uint8 (SETTINGS w p) < k ->
  exists wn,
    confirmN n w = Some wn /\
    to_uint8 (SETTINGS wn p) = (to_uint8 (SETTINGS w p) + Z.of_nat n) mod k.
Proof.
  revert w. induction n as [|n IH]; intros w Hf Hv.
  - exists w. split; [reflexivity|].
    rewrite Z.add_0_r. symmetry. apply Z.mod_small.
    pose proof (to_uint8_range (SETTINGS w p)). lia.
  - destruct (enum_step w Hf) as (w1 & H1 & Hv1 & Hr1).
    destruct (IH w1 (toggle_focused _ _ d H1 Hf) ltac:(lia)) as (wn & Hn & Hvn).
    exists wn. simpl. rewrite H1. split; [exact Hn|].
    rewrite Hvn, Hv1, Z.add_mod_idemp_l by lia. f_equal. lia.
Qed.
End EnumRule.

(** C7, amended: for a focused Enum with between 1 and 255 labels, bound to
    [p], whose current value [v] is below the label count [k], one
    confirmation sets the value to [(v + 1) mod k], which is again a label
    index, and [k] confirmations return the value to [v]. *)
Theorem enum_cycles (w : World) (d : SettingInfo) (p : Field)
  (Hfocus : focused w d)
  (Htype : type d = ENUM)
  (Hptr : valuePtr d = Some p)
  (Hlabels : 1 <= Z.of_nat (List.length (enumValues d)) <= 255)
  (Hvalue : to_uint8 (SETTINGS w p) < Z.of_nat (List.length (enumValues d))) :
  enumCycle w d p.
Proof.
  unfold enumCycle. cbv zeta.
  destruct (enum_step d p Htype Hptr Hlabels w Hfocus) as (w1 & H1 & Hv1 & Hr1).
  destruct (enum_iter d p Htype Hptr Hlabels (List.length (enumValues d)) w Hfocus Hvalue)
    as (wk & Hk & Hvk).
  exists w1, wk. repeat split; try assumption; try lia.
  rewrite Hvk.
  rewrite <- (Z.mul_1_l (Z.of_nat (List.length (enumValues d)))) at 1.
  rewrite Z.mod_add by lia. apply Z.mod_small.
  pose proof (to_uint8_range (SETTINGS w p)). lia.
Qed.

(** The witness: "Sleep Screen", first item of Display, six labels, at its
    last label. *)
Lemma enum_cycles_witness :
  enumCycle (set_SETTINGS (fun _ => 5) (atCategory 0 1 blank))
            (Enum "Sleep Screen" sleepScreen
                  ["Dark"; "Light"; "Custom"; "Cover"; "None"; "Cover + Custom"])
            sleepScreen.
Proof.
  apply enum_cycles.
  - split; [simpl; unfold displaySettingsCount; lia | reflexivity].
  - reflexivity.
  - reflexivity.
  - simpl. lia.
  - vm_compute. reflexivity.
Defined.

(** C7 as stated fails beyond 255 labels.  With 257 labels and value 5 the
    label count converts to the [uint8_t] 1 and the new value is 0, not 6;
    with 256 labels the count converts to 0 and the remainder is undefined. *)
Lemma enum_cycles_counterexample :
  (focused (single enum257 sleepScreen 5) enum257 /\
   type enum257 = ENUM /\ valuePtr enum257 = Some sleepScreen /\
   1 <= Z.of_nat (List.length (enumValues enum257)) /\
   0 <= to_uint8 (SETTINGS (single enum257 sleepScreen 5) sleepScreen)
     < Z.of_nat (List.length (enumValues enum257)) /\
   ~ enumCycle (single enum257 sleepScreen 5) enum257 sleepScreen) /\
  toggleCurrentSetting (single enum256 sleepScreen 5) = None.
Proof.
  split; [|vm_compute; reflexivity].
  split; [split; [simpl; lia | reflexivity]|].
  split; [reflexivity|]. split; [reflexivity|].
  split; [vm_compute; discriminate|].
  split; [vm_compute; split; [discriminate | reflexivity]|].
  intros (w1 & wk & H1 & Hv1 & _).
  vm_compute in H1. injection H1 as <-. vm_compute in Hv1. discriminate Hv1.
Qed.

Section ValueRule.
Variable d : SettingInfo.
Variable p : Field.
Hypothesis Htype : type d = VALUE.
Hypothesis Hptr : valuePtr d = Some p.
Let r := valueRange d.
Hypothesis Hmin : -128 <= min r.
Hypothesis Hmax : max r <= 127.
Hypothesis Hstep : 1 <= step r.

Lemma value_step w :
  focused w d ->
  min r <= to_int8 (SETTINGS w p) <= max r ->
  exists w1,
    toggleCurrentSetting w = Some w1 /\
    to_int8 (SETTINGS w1 p) =
      (if to_int8 (SETTINGS w p) + step r >? max r
       then min r else to_int8 (SETTINGS w p) + step r) /\
    min r <= to_int8 (SETTINGS w1 p) <= max r.
Proof.
  intros Hf Hv. pose proof (toggle_VALUE w d Hf p Htype Hptr) as H1. fold r in H1.
  eexists. split; [exact H1|]. rewrite SETTINGS_assigned.
  rewrite Z.gtb_ltb.
  destruct (Z.ltb_spec (max r) (to_int8 (SETTINGS w p) + step r));
    rewrite to_int8_of_uint8 by lia; split; (reflexivity || lia).
Qed.

Lemma value_iter n w :
  focused w d ->
  min r <= to_int8 (SETTINGS w p) <= max r ->
  exists wn,
    confirmN n w = Some wn /\ min r <= to_int8 (SETTINGS wn p) <= max r.
Proof.
  revert w. induction n as [|n IH]; intros w Hf Hv.
  - exists w. split; [reflexivity | exact Hv].
  - destruct (value_step w Hf Hv) as (w1 & H1 & _ & Hr1).
    destruct (IH w1 (toggle_focused _ _ d H1 Hf) Hr1) as (wn & Hn & Hrn).
    exists wn. simpl. rewrite H1. split; assumption.
Qed.

(** The distance to [max] shrinks with every confirmation that does not
    wrap, so a wrap to [min] comes. *)
Lemma value_wraps m w :
  focused w d ->
  min r <= to_int8 (SETTINGS w p) <= max r ->
  (Z.to_nat (max r - to_int8 (SETTINGS w p)) <= m)%nat ->
  exists n wn,
    (0 < n)%nat /\ confirmN n w = Some wn /\ to_int8 (SETTINGS wn p) = min r.
Proof.
  revert w. induction m as [|m IH]; intros w Hf Hv Hm;
    destruct (value_step w Hf Hv) as (w1 & H1 & Hv1 & Hr1);
    rewrite Z.gtb_ltb in Hv1;
    destruct (Z.ltb_spec (max r) (to_int8 (SETTINGS w p) + step r)) as [Hwrap | Hstay].
  - exists 1%nat, w1. simpl. rewrite H1. repeat split; [lia | exact Hv1].
  - lia.
  - exists 1%nat, w1. simpl. rewrite H1. repeat split; [lia | exact Hv1].
  - destruct (IH w1 (toggle_focused _ _ d H1 Hf) Hr1 ltac:(lia)) as (n & wn & Hpos & Hn & Hvn).
    exists (S n), wn. simpl. rewrite H1. repeat split; [lia | exact Hn | exact Hvn].
Qed.
End ValueRule.

(** C6, amended: for a focused Value whose range lies within the signed
    8-bit values the code reads ([-128 <= min], [max <= 127]) and whose step
    is at least 1, with current value [v] between [min] and [max]: one
    confirmation sets the value to [min] when [v + step > max] and to
    [v + step] otherwise; after any number of confirmations the value is
    still between [min] and [max]; and some positive number of confirmations
    gives exactly [min]. *)
Theorem value_sawtooth (w : World) (d : SettingInfo) (p : Field)
  (Hfocus : focused w d)
  (Htype : type d = VALUE)
  (Hptr : valuePtr d = Some p)
  (Hmin : -128 <= min (valueRange d))
  (Hmax : max (valueRange d) <= 127)
  (Hstep : 1 <= step (valueRange d))
  (Hvalue : min (valueRange d) <= to_int8 (SETTINGS w p) <= max (valueRange d)) :
  valueSawtooth w d p /\
  (forall n, exists wn,
     confirmN n w = Some wn /\
     min (valueRange d) <= to_int8 (SETTINGS wn p) <= max (valueRange d)).
Proof.
  assert (forall n, exists wn,
             confirmN n w = Some wn /\
             min (valueRange d) <= to_int8 (SETTINGS wn p) <= max (valueRange d)) as Hall.
  { intros n. apply value_iter; assumption. }
  split; [|exact Hall].
  unfold valueSawtooth. cbv zeta. split; [|split].
  - destruct (value_step d p Htype Hptr Hmin Hmax Hstep w Hfocus Hvalue) as (w1 & H1 & Hv1 & _).
    exists w1. split; assumption.
  - intros n. destruct (Hall n) as (wn & Hn & Hr). exists wn. split; [exact Hn | lia].
  - eapply value_wraps; try eassumption. apply Nat.le_refl.
Qed.

(** The witness: "Screen Margin", fourth item of Reader, range 5..40 step 5,
    at 40: one confirmation gives 5. *)
Lemma value_sawtooth_witness :
  valueSawtooth (set_SETTINGS (fun _ => 40) (atCategory 1 4 blank)) screenMarginInfo screenMargin /\
  exists w1,
    toggleCurrentSetting (set_SETTINGS (fun _ => 40) (atCategory 1 4 blank)) = Some w1 /\
    SETTINGS w1 screenMargin = 5.
Proof.
  split.
  - apply value_sawtooth.
    + split; [simpl; unfold readerSettingsCount; lia | reflexivity].
    + reflexivity.
    + reflexivity.
    + simpl. lia.
    + simpl. lia.
    + simpl. lia.
    + vm_compute. split; discriminate.
  - eexists. split; [reflexivity|]. reflexivity.
Defined.

Lemma valueStep0_still n w :
  focused w valueStep0 ->
  to_int8 (SETTINGS w screenMargin) = 10 ->
  forall wn, confirmN n w = Some wn -> to_int8 (SETTINGS wn screenMargin) = 10.
Proof.
  revert w. induction n as [|n IH]; intros w Hf Hv wn.
  - intros [= <-]. exact Hv.
  - simpl. pose proof (toggle_VALUE w valueStep0 Hf screenMargin eq_refl eq_refl) as H1.
    rewrite H1. apply IH.
    + eapply toggle_focused; eassumption.
    + rewrite SETTINGS_assigned, Hv. reflexivity.
Qed.

(** C6 as stated fails for a step of 0: with range 5..40 step 0 and value 10
    every confirmation writes 10 again, and no number of them gives 5.  It
    also fails for a range that reaches beyond the signed 8-bit values: with
    range 0..200 step 10 and value 120 the cell holds 130 after one
    confirmation, which the code reads back as -126, and 210 after nine. *)
Lemma value_sawtooth_counterexample :
  (focused (single valueStep0 screenMargin 10) valueStep0 /\
   type valueStep0 = VALUE /\ valuePtr valueStep0 = Some screenMargin /\
   min (valueRange valueStep0)
     <= to_int8 (SETTINGS (single valueStep0 screenMargin 10) screenMargin)
     <= max (valueRange valueStep0) /\
   ~ valueSawtooth (single valueStep0 screenMargin 10) valueStep0 screenMargin) /\
  (min (valueRange valueWide)
     <= to_int8 (SETTINGS (single valueWide screenMargin 120) screenMargin)
     <= max (valueRange valueWide) /\
   ~ valueSawtooth (single valueWide screenMargin 120) valueWide screenMargin /\
   exists w9,
     confirmN 9 (single valueWide screenMargin 120) = Some w9 /\
     SETTINGS w9 screenMargin = 210).
Proof.
  assert (focused (single valueStep0 screenMargin 10) valueStep0) as Hf.
  { split; [simpl; lia | reflexivity]. }
  split.
  - split; [exact Hf|]. split; [reflexivity|]. split; [reflexivity|].
    split; [vm_compute; split; discriminate|].
    intros (_ & _ & n & wn & _ & Hn & Hv).
    rewrite (valueStep0_still n _ Hf eq_refl wn Hn) in Hv. discriminate Hv.
  - split; [vm_compute; split; discriminate|]. split.
    + intros ((w1 & H1 & Hv1) & _).
      vm_compute in H1. injection H1 as <-. vm_compute in Hv1. discriminate Hv1.
    + eexists. split; vm_compute; reflexivity.
Qed.

(** ** Confirming a focused item *)

(** On a descriptor that is bound (and, for an Enum, has 1 to 255 labels) a
    confirmation writes [newCell] to the bound field, saves once, and leaves
    the selection, the table and every other field alone. *)
Lemma toggle_mutable w d :
  focused w d -> mutable d = true ->
  exists w' p,
    toggleCurrentSetting w = Some w' /\
    valuePtr d = Some p /\
    SETTINGS w' p = to_uint8 (newCell d (SETTINGS w p)) /\
    (forall q, q <> p -> SETTINGS w' q = SETTINGS w q) /\
    events w' = (events w ++ [SaveToFile])%list /\
    subActivity w' = subActivity w.
Proof.
  intros Hf Hm. destruct (mutable_bound d Hm) as [p Hp]. unfold newCell.
  destruct (type d) eqn:Ht.
  - rewrite (toggle_TOGGLE w d Hf p Ht Hp). eexists. exists p.
    split; [reflexivity|]. split; [exact Hp|]. rewrite SETTINGS_assigned.
    split; [reflexivity|]. split; [intros q Hq; apply SETTINGS_kept; exact Hq|].
    split; reflexivity.
  - destruct (mutable_size d Ht Hm) as [Hs Hr].
    rewrite (toggle_ENUM w d Hf p Ht Hp) by lia. eexists. exists p.
    split; [reflexivity|]. split; [exact Hp|]. rewrite SETTINGS_assigned.
    split; [reflexivity|]. split; [intros q Hq; apply SETTINGS_kept; exact Hq|].
    split; reflexivity.
  - unfold mutable in Hm. rewrite Ht in Hm. discriminate.
  - rewrite (toggle_VALUE w d Hf p Ht Hp). eexists. exists p.
    split; [reflexivity|]. split; [exact Hp|]. rewrite SETTINGS_assigned.
    split; [reflexivity|]. split; [intros q Hq; apply SETTINGS_kept; exact Hq|].
    split; reflexivity.
Qed.

(** C9: on the screen (no sub-screen, well-formed navigation state), Confirm
    with item [i] focused, [1 <= i <= count], whose descriptor [d] is a
    Toggle, Enum or Value: the cycle keeps the screen in charge, writes the
    new cell to the field [d] is bound to, makes exactly one call of
    [saveToFile] and no other collaborator call, sets the redraw flag, and
    leaves the setting index, the category, the bound table and count and
    every other field as they were. *)
Theorem confirm_item_frame (i : Input) (w : World) (d : SettingInfo)
  (Hsub : subActivity w = None)
  (Hconfirm : confirmPressed i = true)
  (Hinv : inv w)
  (Hfocus : focused w d)
  (Hkind : type d <> ACTION) :
  exists w' p,
    loop i w = Stay w' /\
    valuePtr d = Some p /\
    SETTINGS w' p = to_uint8 (newCell d (SETTINGS w p)) /\
    (forall q, q <> p -> SETTINGS w' q = SETTINGS w q) /\
    events w' = (events w ++ [SaveToFile])%list /\
    updateRequired w' = true /\
    selectedSettingIndex w' = selectedSettingIndex w /\
    selectedCategoryIndex w' = selectedCategoryIndex w /\
    settingsList w' = settingsList w /\
    settingsCount w' = settingsCount w /\
    subActivity w' = None.
Proof.
  assert (mutable d = true) as Hm.
  { destruct Hinv as (_ & Hl & _). destruct Hfocus as [_ Hn].
    apply nth_error_In in Hn. rewrite Hl in Hn.
    pose proof (table_entries_ok (selectedCategoryIndex w)) as Hall.
    rewrite forallb_forall in Hall. specialize (Hall d Hn).
    unfold tableEntry_ok in Hall. destruct (type d); congruence. }
  destruct (toggle_mutable w d Hfocus Hm) as (w1 & p & H1 & Hp & Hnew & Hrest & Hev & Hs).
  destruct (toggle_nav _ _ H1) as (Hc & Hk & Hl & Hn & _).
  exists (set_updateRequired true w1), p.
  unfold loop. rewrite Hsub, Hconfirm, H1.
  replace (selectedSettingIndex w =? 0) with false
    by (symmetry; apply Z.eqb_neq; destruct Hfocus as [? _]; lia).
  simpl. repeat split; try assumption; congruence.
Qed.

(** The witness: Confirm on "Screen Margin" (Reader, item 4) at 40. *)
Lemma confirm_item_frame_witness :
  exists w',
    loop (mkInput true false false false false false 0)
         (set_SETTINGS (fun _ => 40) (atCategory 1 4 blank)) = Stay w' /\
    SETTINGS w' screenMargin = 5 /\
    SETTINGS w' fontSize = 40 /\
    events w' = [SaveToFile] /\
    selectedSettingIndex w' = 4.
Proof.
  destruct (confirm_item_frame (mkInput true false false false false false 0)
              (set_SETTINGS (fun _ => 40) (atCategory 1 4 blank)) screenMarginInfo)
    as (w' & p & Hl & Hp & Hnew & Hrest & Hev & _ & Hk & _).
  - reflexivity.
  - reflexivity.
  - unfold inv. simpl. unfold readerSettingsCount. repeat split; lia.
  - split; [simpl; unfold readerSettingsCount; lia | reflexivity].
  - discriminate.
  - injection Hp as <-. exists w'. split; [exact Hl|].
    split; [rewrite Hnew; reflexivity|].
    split; [rewrite Hrest by discriminate; reflexivity|].
    split; assumption.
Defined.

(** ** Errors *)

(** C10, amended: the three errors of [toggleCurrentSetting] leave the
    selection, the bound table, the redraw flag, the sub-screen slot and
    every setting as they were.  With the focus outside the table nothing at
    all happens; on a Toggle, Enum or Value without a bound field nothing at
    all happens; on an Action whose name is none of the five known ones no
    sub-screen is entered and no mutex is taken, but the closing
    [saveToFile] is still called, once. *)
Theorem errors_are_no_ops (w : World) :
  (selectedSettingIndex w - 1 < 0 \/ selectedSettingIndex w - 1 >= settingsCount w ->
   toggleCurrentSetting w = Some w) /\
  (forall d, focused w d -> type d <> ACTION -> valuePtr d = None ->
             toggleCurrentSetting w = Some w) /\
  (forall d, focused w d -> type d = ACTION -> actionFor (name d) = None ->
             exists w',
               toggleCurrentSetting w = Some w' /\
               selectedCategoryIndex w' = selectedCategoryIndex w /\
               selectedSettingIndex w' = selectedSettingIndex w /\
               settingsList w' = settingsList w /\
               settingsCount w' = settingsCount w /\
               updateRequired w' = updateRequired w /\
               subActivity w' = subActivity w /\
               SETTINGS w' = SETTINGS w /\
               events w' = (events w ++ [SaveToFile])%list).
Proof.
  split; [|split].
  - apply toggle_out_of_bounds.
  - intros d Hf Ht Hp. exact (toggle_unbound w d Hf Ht Hp).
  - intros d Hf Ht Hn. exists (emit SaveToFile w).
    rewrite (toggle_ACTION w d Hf Ht), Hn. repeat split.
Qed.

(** The witness: the tab row focused; an unbound Toggle; an Action named
    "Factory Reset". *)
Lemma errors_are_no_ops_witness :
  toggleCurrentSetting (atCategory 0 0 blank) = Some (atCategory 0 0 blank) /\
  toggleCurrentSetting (single toggleUnbound sleepScreen 1) =
    Some (single toggleUnbound sleepScreen 1) /\
  exists w',
    toggleCurrentSetting (single actionUnknown sleepScreen 0) = Some w' /\
    subActivity w' = None /\ events w' = [SaveToFile].
Proof.
  split; [|split].
  - apply (proj1 (errors_are_no_ops (atCategory 0 0 blank))). left. simpl. lia.
  - apply (proj1 (proj2 (errors_are_no_ops (single toggleUnbound sleepScreen 1))) toggleUnbound).
    + split; [simpl; lia | reflexivity].
    + discriminate.
    + reflexivity.
  - destruct (proj2 (proj2 (errors_are_no_ops (single actionUnknown sleepScreen 0))) actionUnknown)
      as (w' & H & _ & _ & _ & _ & _ & Hs & _ & He).
    + split; [simpl; lia | reflexivity].
    + reflexivity.
    + reflexivity.
    + exists w'. repeat split; assumption.
Defined.

(** C10 as stated fails for the unknown Action: confirming an Action named
    "Factory Reset" is not a no-op, the world after it differs from the world
    before by one call of [saveToFile]. *)
Lemma errors_are_no_ops_counterexample :
  focused (single actionUnknown sleepScreen 0) actionUnknown /\
  type actionUnknown = ACTION /\
  actionFor (name actionUnknown) = None /\
  toggleCurrentSetting (single actionUnknown sleepScreen 0) <>
    Some (single actionUnknown sleepScreen 0) /\
  exists w',
    toggleCurrentSetting (single actionUnknown sleepScreen 0) = Some w' /\
    events (single actionUnknown sleepScreen 0) = [] /\
    events w' = [SaveToFile].
Proof.
  split; [split; [simpl; lia | reflexivity]|].
  split; [reflexivity|]. split; [reflexivity|]. split.
  - intros H. apply (f_equal (option_map events)) in H. discriminate H.
  - eexists. split; [reflexivity|]. split; reflexivity.
Qed.

(** The same errors seen from [loop]: the cycle ends with the redraw flag set
    and, for the unknown Action, the one [saveToFile]. *)
Lemma confirm_error_cycle i w :
  subActivity w = None -> confirmPressed i = true -> selectedSettingIndex w <> 0 ->
  (selectedSettingIndex w - 1 < 0 \/ selectedSettingIndex w - 1 >= settingsCount w \/
   exists d, focused w d /\ type d <> ACTION /\ valuePtr d = None) ->
  loop i w = Stay (set_updateRequired true w).
Proof.
  intros Hs Hc Hk H. unfold loop. rewrite Hs, Hc.
  apply Z.eqb_neq in Hk. rewrite Hk.
  assert (toggleCurrentSetting w = Some w) as ->; [|reflexivity].
  destruct H as [H | [H | (d & Hf & Ht & Hp)]].
  - apply toggle_out_of_bounds. left. exact H.
  - apply toggle_out_of_bounds. right. exact H.
  - exact (toggle_unbound w d Hf Ht Hp).
Qed.

(** ** Frames of the navigation steps *)

Lemma rebind_frame w :
  selectedCategoryIndex (rebind w) = selectedCategoryIndex w /\
  updateRequired (rebind w) = updateRequired w /\
  subActivity (rebind w) = subActivity w /\
  SETTINGS (rebind w) = SETTINGS w /\
  events (rebind w) = events w.
Proof.
  unfold rebind. destruct w as [c k l n u a s e]. simpl.
  destruct c as [|[[?|?|]|[?|?|]|]|?]; repeat split.
Qed.

Lemma navigate_frame i h w :
  subActivity (fst (navigate i h w)) = subActivity w /\
  SETTINGS (fst (navigate i h w)) = SETTINGS w /\
  events (fst (navigate i h w)) = events w.
Proof.
  unfold navigate. cbv zeta.
  repeat match goal with
         | |- context [if ?c then _ else _] => destruct c
         end; repeat split.
Qed.

Lemma navigate_redraw i h w :
  navigate i h w = (w, h) \/ updateRequired (fst (navigate i h w)) = true.
Proof.
  unfold navigate. cbv zeta.
  destruct (upReleased i && (heldTime i >? changeTabsMs)); [right; reflexivity|].
  destruct (downReleased i && (heldTime i >? changeTabsMs)); [right; reflexivity|].
  destruct (upReleased i || leftReleased i); [right; reflexivity|].
  destruct (rightReleased i || downReleased i); [right; reflexivity | left; reflexivity].
Qed.

Lemma afterConfirm_frame i h w w' :
  afterConfirm i h w = Stay w' ->
  subActivity w' = subActivity w /\ SETTINGS w' = SETTINGS w /\ events w' = events w.
Proof.
  unfold afterConfirm. destruct (backPressed i); [discriminate|].
  destruct (navigate_frame i h w) as (Hs & Hv & He).
  destruct (navigate i h w) as [w1 changed]. simpl in *.
  destruct (rebind_frame w1) as (_ & _ & Hs' & Hv' & He').
  destruct changed; intros [= <-]; repeat split; congruence.
Qed.

(** X1: in a cycle with no sub-screen in which Back is pressed and Confirm
    does not reach an item, the screen makes exactly two collaborator calls,
    [saveToFile] and then [onGoHome], and returns, whatever the directional
    buttons and the hold time report; no setting is written. *)
Theorem back_saves_then_exits (i : Input) (w : World)
  (Hsub : subActivity w = None)
  (Hback : backPressed i = true)
  (Hitem : confirmsItem i w = false) :
  exists w',
    loop i w = Home w' /\
    events w' = (events w ++ [SaveToFile; GoHome])%list /\
    SETTINGS w' = SETTINGS w.
Proof.
  unfold confirmsItem in Hitem. unfold loop, afterConfirm. rewrite Hsub, Hback.
  destruct (confirmPressed i); simpl in Hitem.
  - apply negb_false_iff in Hitem. rewrite Hitem.
    eexists. split; [reflexivity|]. simpl. rewrite <- app_assoc. split; reflexivity.
  - eexists. split; [reflexivity|]. simpl. rewrite <- app_assoc. split; reflexivity.
Qed.

(** The witness: Back with a held Down release on the third item of Reader. *)
Lemma back_saves_then_exits_witness :
  exists w',
    loop (mkInput false true false true false false 900) (atCategory 1 3 blank) = Home w' /\
    events w' = [SaveToFile; GoHome].
Proof.
  destruct (back_saves_then_exits (mkInput false true false true false false 900)
              (atCategory 1 3 blank) eq_refl eq_refl eq_refl) as (w' & Hl & He & _).
  exists w'. split; [exact Hl | exact He].
Defined.

(** X2: when Confirm is pressed with an item focused, nothing else the input
    reports in that cycle matters: the outcome is the one of a cycle with
    Confirm alone, and in particular a Back press in the same cycle does not
    leave the screen. *)
Theorem confirm_item_shadows_inputs (i : Input) (w : World)
  (Hsub : subActivity w = None)
  (Hitem : confirmsItem i w = true) :
  loop i w = loop confirmOnly w /\ (forall w', loop i w <> Home w').
Proof.
  unfold confirmsItem in Hitem. apply andb_true_iff in Hitem as [Hc Hk].
  apply negb_true_iff in Hk.
  unfold loop. rewrite Hsub, Hc, Hk. simpl. split; [reflexivity|].
  intros w'. destruct (toggleCurrentSetting w); discriminate.
Qed.

(** The witness: Confirm and Back together on "Hyphenation". *)
Lemma confirm_item_shadows_inputs_witness :
  loop (mkInput true true false false false false 0) (atCategory 1 6 blank) =
  loop confirmOnly (atCategory 1 6 blank).
Proof.
  exact (proj1 (confirm_item_shadows_inputs (mkInput true true false false false false 0)
                  (atCategory 1 6 blank) eq_refl eq_refl)).
Defined.

(** X3: a cycle that keeps the screen in charge either leaves the whole
    state as it was or leaves the redraw flag set: nothing the screen shows
    changes without a redraw being requested. *)
Theorem change_requests_redraw (i : Input) (w w' : World)
  (Hloop : loop i w = Stay w') :
  w' = w \/ updateRequired w' = true.
Proof.
  unfold loop in Hloop. destruct (subActivity w); [discriminate|].
  assert (forall h w0, (h = true -> updateRequired w0 = true) ->
                       afterConfirm i h w0 = Stay w' ->
                       (h = false /\ w' = w0) \/ updateRequired w' = true) as Hafter.
  { intros h w0 Hh. unfold afterConfirm. destruct (backPressed i); [discriminate|].
    destruct (navigate_redraw i h w0) as [Hsame | Hset].
    - rewrite Hsame. destruct h; intros [= <-].
      + right. destruct (rebind_frame w0) as (_ & -> & _). apply Hh. reflexivity.
      + left. split; reflexivity.
    - destruct (navigate i h w0) as [w1 changed]. simpl in Hset.
      destruct changed; intros [= <-]; right; [|exact Hset].
      destruct (rebind_frame w1) as (_ & -> & _). exact Hset. }
  destruct (confirmPressed i).
  - destruct (selectedSettingIndex w =? 0).
    + assert (true = true ->
              updateRequired
                (set_updateRequired true
                   (set_selectedCategoryIndex (nextCategory (selectedCategoryIndex w)) w)) = true)
        as Hset by reflexivity.
      destruct (Hafter _ _ Hset Hloop) as [[Hh _] | Hu]; [discriminate | right; exact Hu].
    + destruct (toggleCurrentSetting w); [|discriminate].
      injection Hloop as <-. right. reflexivity.
  - assert (false = true -> updateRequired w = true) as Hno by discriminate.
    destruct (Hafter _ _ Hno Hloop) as [[_ He] | Hu]; [left; exact He | right; exact Hu].
Qed.

(** The witness: a Left release from the tab row of Controls. *)
Lemma change_requests_redraw_witness :
  exists w',
    loop (mkInput false false false false true false 0) (atCategory 2 0 blank) = Stay w' /\
    selectedSettingIndex w' = 4 /\ updateRequired w' = true.
Proof.
  eexists. split; [reflexivity|]. split; [reflexivity|].
  destruct (change_requests_redraw (mkInput false false false false true false 0)
              (atCategory 2 0 blank) _ eq_refl) as [H | H].
  - discriminate H.
  - exact H.
Defined.

(** X4: only Confirm on an item writes settings or calls a collaborator.  In
    every other cycle that keeps the screen in charge (navigation, category
    change by gesture or by Confirm on the tab row) the settings store and
    the log of collaborator calls are untouched and no sub-screen is
    entered. *)
Theorem browsing_is_silent (i : Input) (w w' : World)
  (Hsub : subActivity w = None)
  (Hitem : confirmsItem i w = false)
  (Hloop : loop i w = Stay w') :
  SETTINGS w' = SETTINGS w /\ events w' = events w /\ subActivity w' = None.
Proof.
  unfold confirmsItem in Hitem. unfold loop in Hloop. rewrite Hsub in Hloop.
  destruct (confirmPressed i); simpl in Hitem.
  - apply negb_false_iff in Hitem. rewrite Hitem in Hloop.
    destruct (afterConfirm_frame _ _ _ _ Hloop) as (Hs & Hv & He). simpl in *.
    repeat split; congruence.
  - destruct (afterConfirm_frame _ _ _ _ Hloop) as (Hs & Hv & He).
    repeat split; congruence.
Qed.

(** The witness: Confirm on the tab row of System with Right released. *)
Lemma browsing_is_silent_witness :
  exists w',
    loop (mkInput true false false false false true 0) (atCategory 3 0 blank) = Stay w' /\
    events w' = [] /\ subActivity w' = None.
Proof.
  eexists. split; [reflexivity|].
  destruct (browsing_is_silent (mkInput true false false false false true 0)
              (atCategory 3 0 blank) _ eq_refl eq_refl eq_refl) as (_ & He & Hs).
  split; [exact He | exact Hs].
Defined.

(** ** Category changes and the ring, composed *)

Lemma prevCategory_moves c : 0 <= c <= 3 -> prevCategory c <> c.
Proof.
  intros H. unfold prevCategory, categoryCount.
  assert (c = 0 \/ c = 1 \/ c = 2 \/ c = 3) as [-> | [-> | [-> | ->]]] by lia; discriminate.
Qed.

Lemma nextCategory_moves c : 0 <= c <= 3 -> nextCategory c <> c.
Proof.
  intros H. unfold nextCategory, categoryCount.
  assert (c = 0 \/ c = 1 \/ c = 2 \/ c = 3) as [-> | [-> | [-> | ->]]] by lia; discriminate.
Qed.

Lemma next_prev_category c : 0 <= c <= 3 -> nextCategory (prevCategory c) = c.
Proof.
  intros H. unfold prevCategory, nextCategory, categoryCount.
  assert (c = 0 \/ c = 1 \/ c = 2 \/ c = 3) as [-> | [-> | [-> | ->]]] by lia; reflexivity.
Qed.

(** X5: in a cycle that reaches the navigation chain, the category changes
    exactly when Up or Down is released after more than 700 ms.  Left and
    Right never change it however long they were held, and neither does a
    short Up or Down. *)
Theorem category_changes_iff_gesture (i : Input) (w : World)
  (Hsub : subActivity w = None)
  (Hconfirm : confirmPressed i = false)
  (Hback : backPressed i = false)
  (Hcat : 0 <= selectedCategoryIndex w <= 3) :
  exists w',
    loop i w = Stay w' /\
    (selectedCategoryIndex w' <> selectedCategoryIndex w <-> isGesture i = true).
Proof.
  pose proof (prevCategory_moves _ Hcat) as Hprev.
  pose proof (nextCategory_moves _ Hcat) as Hnext.
  unfold loop, afterConfirm, navigate, isGesture. rewrite Hsub, Hconfirm, Hback. cbv zeta.
  destruct (upReleased i), (downReleased i), (heldTime i >? changeTabsMs); simpl;
    try (eexists; split; [reflexivity|];
         rewrite (proj1 (rebind_frame _)); simpl;
         split; [reflexivity | intros _; assumption]);
    destruct (leftReleased i), (rightReleased i); simpl;
    eexists; (split; [reflexivity|]); simpl;
    (split; [intros H; exfalso; apply H; reflexivity | discriminate]).
Qed.

(** The witness: Left released after two seconds on the tab row of Reader
    moves the focus to the last item and keeps the category. *)
Lemma category_changes_iff_gesture_witness :
  exists w',
    loop (mkInput false false false false true false 2000) (atCategory 1 0 blank) = Stay w' /\
    selectedCategoryIndex w' = 1 /\ selectedSettingIndex w' = 9.
Proof.
  destruct (category_changes_iff_gesture (mkInput false false false false true false 2000)
              (atCategory 1 0 blank) eq_refl eq_refl eq_refl) as (w' & Hl & Hiff).
  - simpl. lia.
  - exists w'. split; [exact Hl|]. split.
    + destruct (Z.eq_dec (selectedCategoryIndex w') 1) as [E | N]; [exact E|].
      apply Hiff in N. discriminate N.
    + vm_compute in Hl. injection Hl as <-. reflexivity.
Defined.

(** X6: a held Up followed by a held Down brings back the category with its
    table and count, but not the focused item: the focus is on the tab row
    if it was there and on the first item otherwise. *)
Theorem gesture_there_and_back (h1 h2 : Z) (w : World)
  (Hsub : subActivity w = None)
  (Hinv : inv w)
  (Hh1 : h1 > 700)
  (Hh2 : h2 > 700) :
  exists w',
    run [holdUp h1; holdDown h2] w = Stay w' /\
    selectedCategoryIndex w' = selectedCategoryIndex w /\
    settingsList w' = settingsList w /\
    settingsCount w' = settingsCount w /\
    selectedSettingIndex w' = (if selectedSettingIndex w =? 0 then 0 else 1).
Proof.
  destruct Hinv as (Hcat & Hl & Hn & _).
  pose proof (prevCategory_range _ Hcat) as Hp.
  simpl. rewrite (gesture_up (holdUp h1) w Hsub eq_refl eq_refl eq_refl Hh1).
  rewrite rebind_spec by exact Hp.
  rewrite gesture_down; try reflexivity; try assumption.
  simpl. rewrite next_prev_category by exact Hcat.
  rewrite rebind_spec by (simpl; exact Hcat).
  eexists. split; [reflexivity|]. simpl.
  repeat split; try congruence.
  destruct (selectedSettingIndex w =? 0); reflexivity.
Qed.

(** The witness: from the seventh item of Reader. *)
Lemma gesture_there_and_back_witness :
  exists w',
    run [holdUp 701; holdDown 5000] (atCategory 1 7 blank) = Stay w' /\
    selectedCategoryIndex w' = 1 /\ selectedSettingIndex w' = 1.
Proof.
  destruct (gesture_there_and_back 701 5000 (atCategory 1 7 blank) eq_refl)
    as (w' & Hr & Hc & _ & _ & Hk).
  - unfold inv. simpl. unfold readerSettingsCount. repeat split; lia.
  - lia.
  - lia.
  - exists w'. split; [exact Hr|]. split; assumption.
Defined.

Lemma forward_run inputs w :
  subActivity w = None ->
  0 <= selectedSettingIndex w <= settingsCount w ->
  forallb plainForward inputs = true ->
  exists w',
    run inputs w = Stay w' /\
    selectedCategoryIndex w' = selectedCategoryIndex w /\
    settingsList w' = settingsList w /\
    settingsCount w' = settingsCount w /\
    SETTINGS w' = SETTINGS w /\
    selectedSettingIndex w' =
      (selectedSettingIndex w + Z.of_nat (List.length inputs)) mod (settingsCount w + 1).
Proof.
  revert w. induction inputs as [|i rest IH]; intros w Hsub Hrange Hfwd.
  - exists w. simpl. repeat split. rewrite Z.add_0_r. symmetry. apply Z.mod_small. lia.
  - simpl in Hfwd. apply andb_true_iff in Hfwd as [Hi Hrest].
    unfold plainForward in Hi. apply andb_true_iff in Hi as [Hi Hfw].
    apply andb_true_iff in Hi as [Hplain Hnb]. apply negb_true_iff in Hnb.
    destruct (plain_cycle i w Hsub Hplain Hrange)
      as (w1 & Hloop & Hsub1 & Hc1 & Hl1 & Hn1 & Hs1 & _ & Hk1).
    unfold ringStep in Hk1. rewrite Hnb, Hfw in Hk1.
    pose proof (Z.mod_pos_bound (selectedSettingIndex w + 1) (settingsCount w + 1) ltac:(lia)).
    destruct (IH w1 Hsub1 ltac:(rewrite Hn1, Hk1; lia) Hrest)
      as (w' & Hrun & Hc & Hl & Hn & Hs & Hk).
    exists w'. cbn [run]. rewrite Hloop.
    split; [exact Hrun|]. repeat split; try congruence.
    rewrite Hk, Hn1, Hk1, Z.add_mod_idemp_l by lia. f_equal.
    change (List.length (i :: rest)) with (S (List.length rest)). lia.
Qed.

(** X7: with [N] items bound, [N + 1] plain forward cycles (Right or Down,
    not held into a gesture) bring the focus back to where it started, from
    the tab row or from any item. *)
Theorem forward_full_circle (inputs : list Input) (w : World)
  (Hsub : subActivity w = None)
  (Hrange : 0 <= selectedSettingIndex w <= settingsCount w)
  (Hfwd : forallb plainForward inputs = true)
  (Hlen : Z.of_nat (List.length inputs) = settingsCount w + 1) :
  exists w',
    run inputs w = Stay w' /\
    selectedSettingIndex w' = selectedSettingIndex w /\
    selectedCategoryIndex w' = selectedCategoryIndex w /\
    settingsList w' = settingsList w /\
    SETTINGS w' = SETTINGS w.
Proof.
  destruct (forward_run inputs w Hsub Hrange Hfwd) as (w' & Hrun & Hc & Hl & Hn & Hs & Hk).
  exists w'. repeat split; try assumption.
  rewrite Hk, Hlen.
  rewrite <- (Z.mul_1_l (settingsCount w + 1)) at 1.
  rewrite Z.mod_add by lia. apply Z.mod_small. lia.
Qed.

(** The witness: five forward cycles around Controls from its second item. *)
Lemma forward_full_circle_witness :
  exists w',
    run [holdDown 0; holdDown 700; mkInput false false false false false true 0;
         mkInput false false false true false true 100; holdDown 3]
        (atCategory 2 2 blank) = Stay w' /\
    selectedSettingIndex w' = 2.
Proof.
  destruct (forward_full_circle
              [holdDown 0; holdDown 700; mkInput false false false false false true 0;
               mkInput false false false true false true 100; holdDown 3]
              (atCategory 2 2 blank) eq_refl) as (w' & Hr & Hk & _).
  - simpl. unfold controlsSettingsCount. lia.
  - reflexivity.
  - reflexivity.
  - exists w'. split; [exact Hr | exact Hk].
Defined.

(** ** Sub-screens *)

(** Every Action of the four tables carries a name the [strcmp] chain knows. *)
Lemma table_actions_known c :
  forallb (fun d => match type d, actionFor (name d) with
                    | ACTION, None => false
                    | _, _ => true
                    end) (tableOf c) = true.
Proof. unfold tableOf. destruct c as [|[[?|?|]|[?|?|]|]|?]; reflexivity. Qed.

Lemma confirm_action_cycle i w d :
  subActivity w = None -> confirmPressed i = true -> inv w -> focused w d ->
  type d = ACTION ->
  exists a,
    actionFor (name d) = Some a /\
    loop i w = Stay (set_updateRequired true (emit SaveToFile (launch a w))).
Proof.
  intros Hsub Hc Hinv Hf Ht.
  assert (exists a, actionFor (name d) = Some a) as [a Ha].
  { destruct Hinv as (_ & Hl & _). destruct Hf as [_ Hn].
    apply nth_error_In in Hn. rewrite Hl in Hn.
    pose proof (table_actions_known (selectedCategoryIndex w)) as Hall.
    rewrite forallb_forall in Hall. specialize (Hall d Hn). rewrite Ht in Hall.
    destruct (actionFor (name d)) as [a|]; [eauto | discriminate]. }
  exists a. split; [exact Ha|].
  unfold loop. rewrite Hsub, Hc.
  replace (selectedSettingIndex w =? 0) with false
    by (symmetry; apply Z.eqb_neq; destruct Hf as [? _]; lia).
  rewrite (toggle_ACTION w d Hf Ht), Ha. reflexivity.
Qed.

(** X8: on the screen, Confirm on any Action item of the tables enters the
    sub-screen its name stands for (the fallback for an unknown name is never
    taken).  The collaborator calls are, in order, mutex take, exit, enter,
    mutex give, save; the sub-screen is installed, the redraw flag is set,
    and the selection and every setting stay as they were. *)
Theorem confirm_action_launches (i : Input) (w : World) (d : SettingInfo)
  (Hsub : subActivity w = None)
  (Hconfirm : confirmPressed i = true)
  (Hinv : inv w)
  (Hfocus : focused w d)
  (Hkind : type d = ACTION) :
  exists a w',
    loop i w = Stay w' /\
    actionFor (name d) = Some a /\
    subActivity w' = Some a /\
    events w' =
      (events w ++ [MutexTake; ExitActivity; EnterNewActivity a; MutexGive; SaveToFile])%list /\
    SETTINGS w' = SETTINGS w /\
    updateRequired w' = true /\
    selectedCategoryIndex w' = selectedCategoryIndex w /\
    selectedSettingIndex w' = selectedSettingIndex w /\
    settingsList w' = settingsList w /\
    settingsCount w' = settingsCount w.
Proof.
  destruct (confirm_action_cycle i w d Hsub Hconfirm Hinv Hfocus Hkind) as (a & Ha & Hl).
  exists a. eexists. split; [exact Hl|]. split; [exact Ha|]. simpl.
  repeat rewrite <- app_assoc. repeat split.
Qed.

(** The witness: "Clear Cache", fourth item of System. *)
Lemma confirm_action_launches_witness :
  exists w',
    loop confirmOnly (atCategory 3 4 blank) = Stay w' /\
    subActivity w' = Some ClearCacheActivity /\
    events w' =
      [MutexTake; ExitActivity; EnterNewActivity ClearCacheActivity; MutexGive; SaveToFile].
Proof.
  destruct (confirm_action_launches confirmOnly (atCategory 3 4 blank) (Action "Clear Cache"))
    as (a & w' & Hl & Ha & Hs & He & _).
  - reflexivity.
  - reflexivity.
  - unfold inv. simpl. unfold systemSettingsCount. repeat split; lia.
  - split; [simpl; unfold systemSettingsCount; lia | reflexivity].
  - reflexivity.
  - injection Ha as <-. exists w'. repeat split; assumption.
Defined.

(** X9: a sub-screen does not lose the user's place.  After Confirm on an
    Action item the sub-screen is installed; whatever it then writes to the
    settings store and whatever collaborator calls it makes, when it calls
    its completion callback the screen is in charge again on the same
    category, table and item, the invariant holds, and a redraw is
    pending. *)
Theorem subscreen_returns_to_place (i : Input) (w : World) (d : SettingInfo)
  (s : Store) (es : list Event)
  (Hsub : subActivity w = None)
  (Hconfirm : confirmPressed i = true)
  (Hinv : inv w)
  (Hfocus : focused w d)
  (Hkind : type d = ACTION) :
  exists a w1,
    loop i w = Stay w1 /\
    subActivity w1 = Some a /\
    subActivity (onSubActivityComplete (subScreenRan s es w1)) = None /\
    updateRequired (onSubActivityComplete (subScreenRan s es w1)) = true /\
    inv (onSubActivityComplete (subScreenRan s es w1)) /\
    focused (onSubActivityComplete (subScreenRan s es w1)) d /\
    selectedCategoryIndex (onSubActivityComplete (subScreenRan s es w1)) =
      selectedCategoryIndex w /\
    selectedSettingIndex (onSubActivityComplete (subScreenRan s es w1)) =
      selectedSettingIndex w /\
    SETTINGS (onSubActivityComplete (subScreenRan s es w1)) = s.
Proof.
  destruct (confirm_action_cycle i w d Hsub Hconfirm Hinv Hfocus Hkind) as (a & Ha & Hl).
  exists a. eexists. split; [exact Hl|].
  repeat split; try apply Hinv; apply Hfocus.
Qed.

(** The witness: "KOReader Sync", second item of System; the sub-screen
    writes 3 into every field and saves before it completes. *)
Lemma subscreen_returns_to_place_witness :
  exists w1,
    loop confirmOnly (atCategory 3 2 blank) = Stay w1 /\
    subActivity w1 = Some KOReaderSettingsActivity /\
    selectedCategoryIndex
      (onSubActivityComplete (subScreenRan (fun _ => 3) [SaveToFile] w1)) = 3 /\
    selectedSettingIndex
      (onSubActivityComplete (subScreenRan (fun _ => 3) [SaveToFile] w1)) = 2.
Proof.
  destruct (subscreen_returns_to_place confirmOnly (atCategory 3 2 blank)
              (Action "KOReader Sync") (fun _ => 3) [SaveToFile])
    as (a & w1 & Hl & Hs & _ & _ & _ & _ & Hc & Hk & _).
  - reflexivity.
  - reflexivity.
  - unfold inv. simpl. unfold systemSettingsCount. repeat split; lia.
  - split; [simpl; unfold systemSettingsCount; lia | reflexivity].
  - reflexivity.
  - exists w1. split; [exact Hl|]. split; [|split; [exact Hc | exact Hk]].
    vm_compute in Hl. injection Hl as <-. reflexivity.
Defined.

(** ** The display task *)

(** X10: a redraw request is served once and is not lost to a sub-screen.
    While a sub-screen is installed a turn of the display task makes no call
    at all (no mutex take, no [render()]) and keeps the flag.  After the
    completion callback the next turn clears the flag and makes exactly three
    calls: mutex take, [render()] on the state with the selection and the
    settings the sub-screen left, mutex give; the turn after that makes no
    call. *)
Theorem redraw_waits_for_subscreen (w : World) (a : SubScreen)
  (Hsub : subActivity w = Some a) :
  displayTaskTurn w = (w, []) /\
  exists w2,
    displayTaskTurn (onSubActivityComplete w) = (w2, [DisplayTake; DisplayRender w2; DisplayGive]) /\
    updateRequired w2 = false /\
    subActivity w2 = None /\
    SETTINGS w2 = SETTINGS w /\
    selectedCategoryIndex w2 = selectedCategoryIndex w /\
    selectedSettingIndex w2 = selectedSettingIndex w /\
    settingsList w2 = settingsList w /\
    settingsCount w2 = settingsCount w /\
    displayTaskTurn w2 = (w2, []).
Proof.
  split.
  - unfold displayTaskTurn. rewrite Hsub. rewrite andb_false_r. reflexivity.
  - eexists. split; [reflexivity|]. repeat split.
Qed.

(** The witness: the world right after "Clear Cache" was entered. *)
Lemma redraw_waits_for_subscreen_witness :
  displayTaskTurn (launch ClearCacheActivity (set_updateRequired true (atCategory 3 4 blank))) =
  (launch ClearCacheActivity (set_updateRequired true (atCategory 3 4 blank)), []).
Proof.
  exact (proj1 (redraw_waits_for_subscreen
                  (launch ClearCacheActivity (set_updateRequired true (atCategory 3 4 blank)))
                  ClearCacheActivity eq_refl)).
Defined.

(** ** What render shows *)

Lemma row_focused declared w d :
  focused w d ->
  rowName w (listSelected w) = Some (name d) /\
  rowValue declared w (listSelected w) =
    match type d, valuePtr d with
    | TOGGLE, Some p => Some (if to_bool (SETTINGS w p) then "ON" else "OFF")
    | ENUM, Some p => nth_error (enumValues d) (Z.to_nat (to_uint8 (SETTINGS w p)))
    | VALUE, Some p => Some (to_string (declared (SETTINGS w p)))
    | _, _ => Some ""
    end.
Proof.
  intros [Hk Hn]. unfold rowName, rowValue, listSelected.
  replace (selectedSettingIndex w - 1 <? 0) with false by (symmetry; apply Z.ltb_ge; lia).
  rewrite Hn. split; reflexivity.
Qed.

(** X11: the row the list highlights is the item Confirm acts on.  On a
    well-formed screen either the tab bar is marked as focused and the list
    is given no selected row (index -1), or the tab bar is not marked and the
    selected row is inside the table and carries the name of the descriptor
    [toggleCurrentSetting] reads. *)
Theorem highlight_is_confirm_target (w : World)
  (Hinv : inv w) :
  (tabBarSelected w = true /\ listSelected w = -1) \/
  (tabBarSelected w = false /\
   0 <= listSelected w < settingsCount w /\
   exists d, focused w d /\ rowName w (listSelected w) = Some (name d)).
Proof.
  unfold tabBarSelected. destruct (Z.eqb_spec (selectedSettingIndex w) 0) as [Hz | Hnz].
  - left. split; [reflexivity|]. unfold listSelected. lia.
  - right. split; [reflexivity|].
    destruct (inv_focused w Hinv Hnz) as (d & Hf & _).
    split; [unfold listSelected; destruct Hf as [? _]; lia|].
    exists d. split; [exact Hf|]. apply (row_focused (fun z => z) w d Hf).
Qed.

(** The witness: the fourth item of Reader is "Screen Margin". *)
Lemma highlight_is_confirm_target_witness :
  rowName (atCategory 1 4 blank) (listSelected (atCategory 1 4 blank)) = Some "Screen Margin".
Proof.
  destruct (highlight_is_confirm_target (atCategory 1 4 blank)) as [[Ht _] | (_ & _ & d & Hf & Hn)].
  - unfold inv. simpl. unfold readerSettingsCount. repeat split; lia.
  - discriminate Ht.
  - rewrite Hn. destruct Hf as [_ Hd]. vm_compute in Hd. injection Hd as <-. reflexivity.
Defined.

(** X12: the tab bar gets the four category names in order.  With the
    category index in 0..3 exactly one tab is active, the one of the selected
    category; with an index outside 0..3 no tab is active. *)
Theorem tab_bar_marks_category (w : World) :
  map tabLabel (renderTabs w) = categoryNames /\
  (0 <= selectedCategoryIndex w <= 3 ->
   filter tabActive (renderTabs w) =
     [mkTab (nth (Z.to_nat (selectedCategoryIndex w)) categoryNames "") true]) /\
  (selectedCategoryIndex w < 0 \/ 3 < selectedCategoryIndex w ->
   filter tabActive (renderTabs w) = []).
Proof.
  split; [reflexivity|]. split.
  - intros H.
    assert (selectedCategoryIndex w = 0 \/ selectedCategoryIndex w = 1 \/
            selectedCategoryIndex w = 2 \/ selectedCategoryIndex w = 3) as Hc by lia.
    unfold renderTabs. destruct Hc as [-> | [-> | [-> | ->]]]; reflexivity.
  - intros H. unfold renderTabs. simpl.
    destruct (Z.eqb_spec (selectedCategoryIndex w) 0); [lia|].
    destruct (Z.eqb_spec (selectedCategoryIndex w) 1); [lia|].
    destruct (Z.eqb_spec (selectedCategoryIndex w) 2); [lia|].
    destruct (Z.eqb_spec (selectedCategoryIndex w) 3); [lia|].
    reflexivity.
Qed.

(** The witness: Controls. *)
Lemma tab_bar_marks_category_witness :
  filter tabActive (renderTabs (atCategory 2 0 blank)) = [mkTab "Controls" true].
Proof.
  apply (proj1 (proj2 (tab_bar_marks_category (atCategory 2 0 blank)))). simpl. lia.
Defined.

(** X13: after Confirm on a Toggle the text of its row flips between "ON"
    and "OFF". *)
Theorem toggle_flips_text (declared : Z -> Z) (w : World) (d : SettingInfo) (p : Field)
  (Hfocus : focused w d)
  (Htype : type d = TOGGLE)
  (Hptr : valuePtr d = Some p) :
  exists w1,
    toggleCurrentSetting w = Some w1 /\
    rowValue declared w (listSelected w) =
      Some (if to_bool (SETTINGS w p) then "ON" else "OFF") /\
    rowValue declared w1 (listSelected w1) =
      Some (if to_bool (SETTINGS w p) then "OFF" else "ON").
Proof.
  pose proof (toggle_TOGGLE w d Hfocus p Htype Hptr) as H1.
  pose proof (toggle_focused _ _ d H1 Hfocus) as Hfocus1.
  eexists. split; [exact H1|].
  rewrite (proj2 (row_focused declared _ d Hfocus)), Htype, Hptr.
  rewrite (proj2 (row_focused declared _ d Hfocus1)), Htype, Hptr.
  rewrite SETTINGS_assigned, to_bool_of_bool.
  split; [reflexivity|]. destruct (to_bool (SETTINGS w p)); reflexivity.
Qed.

(** The witness: "Text Anti-Aliasing", ninth item of Reader, on. *)
Lemma toggle_flips_text_witness :
  exists w1,
    toggleCurrentSetting (set_SETTINGS (fun _ => 1) (atCategory 1 9 blank)) = Some w1 /\
    rowValue to_uint8 w1 8 = Some "OFF".
Proof.
  destruct (toggle_flips_text to_uint8 (set_SETTINGS (fun _ => 1) (atCategory 1 9 blank))
              (Toggle "Text Anti-Aliasing" textAntiAliasing) textAntiAliasing)
    as (w1 & H1 & _ & Hv).
  - split; [simpl; unfold readerSettingsCount; lia | reflexivity].
  - reflexivity.
  - reflexivity.
  - exists w1. split; [exact H1|].
    vm_compute in H1. injection H1 as <-. exact Hv.
Defined.

(** X14: Confirm on an Enum with 1 to 255 labels leaves a label index in the
    field whatever the field held, and the row then shows the label after
    the old value on the ring of labels.  Before the confirmation a field at
    or above the label count makes the row text a read outside the labels. *)
Theorem enum_confirm_shows_label (declared : Z -> Z) (w : World) (d : SettingInfo) (p : Field)
  (Hfocus : focused w d)
  (Htype : type d = ENUM)
  (Hptr : valuePtr d = Some p)
  (Hlabels : 1 <= Z.of_nat (List.length (enumValues d)) <= 255) :
  (Z.of_nat (List.length (enumValues d)) <= to_uint8 (SETTINGS w p) ->
   rowValue declared w (listSelected w) = None) /\
  exists w1 s,
    toggleCurrentSetting w = Some w1 /\
    to_uint8 (SETTINGS w1 p) < Z.of_nat (List.length (enumValues d)) /\
    rowValue declared w1 (listSelected w1) = Some s /\
    nth_error (enumValues d)
      (Z.to_nat ((to_uint8 (SETTINGS w p) + 1) mod Z.of_nat (List.length (enumValues d))))
    = Some s.
Proof.
  split.
  - intros Hbig. rewrite (proj2 (row_focused declared _ d Hfocus)), Htype, Hptr.
    apply nth_error_None. lia.
  - destruct (enum_step d p Htype Hptr Hlabels w Hfocus) as (w1 & H1 & Hv1 & Hr1).
    pose proof (toggle_focused _ _ d H1 Hfocus) as Hfocus1.
    destruct (nth_error (enumValues d) (Z.to_nat (to_uint8 (SETTINGS w1 p)))) as [s|] eqn:E.
    + exists w1, s. split; [exact H1|]. split; [lia|]. split.
      * rewrite (proj2 (row_focused declared _ d Hfocus1)), Htype, Hptr. exact E.
      * rewrite <- Hv1. exact E.
    + apply nth_error_None in E. lia.
Qed.

(** The witness: "UI Theme", two labels, holding 7: the row has no label to
    read, and one Confirm brings it to "Classic". *)
Lemma enum_confirm_shows_label_witness :
  rowValue to_uint8 (set_SETTINGS (fun _ => 7) (atCategory 0 7 blank)) 6 = None /\
  exists w1,
    toggleCurrentSetting (set_SETTINGS (fun _ => 7) (atCategory 0 7 blank)) = Some w1 /\
    rowValue to_uint8 w1 6 = Some "Classic".
Proof.
  destruct (enum_confirm_shows_label to_uint8 (set_SETTINGS (fun _ => 7) (atCategory 0 7 blank))
              (Enum "UI Theme" uiTheme ["Classic"; "Lyra"]) uiTheme)
    as (Hbefore & w1 & s & H1 & _ & Hrow & Hs).
  - split; [simpl; unfold displaySettingsCount; lia | reflexivity].
  - reflexivity.
  - reflexivity.
  - simpl. lia.
  - split.
    + apply Hbefore. vm_compute. discriminate.
    + exists w1. split; [exact H1|].
      vm_compute in Hs. injection Hs as <-.
      vm_compute in H1. injection H1 as <-. exact Hrow.
Defined.

(** ** Values outside their range *)

Section ValueAnyCell.
Variable d : SettingInfo.
Variable p : Field.
Hypothesis Htype : type d = VALUE.
Hypothesis Hptr : valuePtr d = Some p.
Let r := valueRange d.
Hypothesis Hmin : -128 <= min r.
Hypothesis Hord : min r <= max r.
Hypothesis Hmax : max r <= 127.
Hypothesis Hstep : 1 <= step r.

Lemma value_step_any w :
  focused w d ->
  exists w1,
    toggleCurrentSetting w = Some w1 /\
    to_int8 (SETTINGS w1 p) =
      (if to_int8 (SETTINGS w p) + step r >? max r
       then min r else to_int8 (SETTINGS w p) + step r) /\
    to_int8 (SETTINGS w1 p) <= max r.
Proof.
  intros Hf. pose proof (toggle_VALUE w d Hf p Htype Hptr) as H1. fold r in H1.
  pose proof (to_int8_range (SETTINGS w p)) as Hv.
  eexists. split; [exact H1|]. rewrite SETTINGS_assigned. rewrite Z.gtb_ltb.
  destruct (Z.ltb_spec (max r) (to_int8 (SETTINGS w p) + step r));
    rewrite to_int8_of_uint8 by lia; split; (reflexivity || lia).
Qed.

Lemma value_wraps_any m w :
  focused w d ->
  (Z.to_nat (max r - to_int8 (SETTINGS w p)) <= m)%nat ->
  exists n wn,
    (0 < n)%nat /\ confirmN n w = Some wn /\ to_int8 (SETTINGS wn p) = min r.
Proof.
  revert w. induction m as [|m IH]; intros w Hf Hm;
    destruct (value_step_any w Hf) as (w1 & H1 & Hv1 & Hr1);
    rewrite Z.gtb_ltb in Hv1;
    destruct (Z.ltb_spec (max r) (to_int8 (SETTINGS w p) + step r)) as [Hwrap | Hstay].
  - exists 1%nat, w1. simpl. rewrite H1. repeat split; [lia | exact Hv1].
  - lia.
  - exists 1%nat, w1. simpl. rewrite H1. repeat split; [lia | exact Hv1].
  - destruct (IH w1 (toggle_focused _ _ d H1 Hf) ltac:(lia)) as (n & wn & Hpos & Hn & Hvn).
    exists (S n), wn. simpl. rewrite H1. repeat split; [lia | exact Hn | exact Hvn].
Qed.
End ValueAnyCell.

(** X15: a Value whose field holds anything at all (for instance a number
    outside the range, read from storage) is brought back by Confirm.  For a
    range within the signed 8-bit values with [min <= max] and a step of at
    least 1: after one confirmation the value is at most [max], a value above
    [max] becomes [min] at once, and some positive number of confirmations
    gives exactly [min]. *)
Theorem value_confirm_recovers (w : World) (d : SettingInfo) (p : Field)
  (Hfocus : focused w d)
  (Htype : type d = VALUE)
  (Hptr : valuePtr d = Some p)
  (Hmin : -128 <= min (valueRange d))
  (Hord : min (valueRange d) <= max (valueRange d))
  (Hmax : max (valueRange d) <= 127)
  (Hstep : 1 <= step (valueRange d)) :
  (exists w1,
     toggleCurrentSetting w = Some w1 /\
     to_int8 (SETTINGS w1 p) <= max (valueRange d) /\
     (max (valueRange d) < to_int8 (SETTINGS w p) ->
      to_int8 (SETTINGS w1 p) = min (valueRange d))) /\
  (exists n wn,
     (0 < n)%nat /\ confirmN n w = Some wn /\
     to_int8 (SETTINGS wn p) = min (valueRange d)).
Proof.
  split.
  - destruct (value_step_any d p Htype Hptr Hmin Hord Hmax Hstep w Hfocus)
      as (w1 & H1 & Hv1 & Hr1).
    exists w1. split; [exact H1|]. split; [exact Hr1|].
    intros Habove. rewrite Hv1. rewrite Z.gtb_ltb.
    destruct (Z.ltb_spec (max (valueRange d))
                (to_int8 (SETTINGS w p) + step (valueRange d))); [reflexivity | lia].
  - eapply value_wraps_any; try eassumption. apply Nat.le_refl.
Qed.

(** The witness: "Screen Margin" holding 100 goes to 5 in one Confirm, and
    holding 2 (below the range) it stays at most 40. *)
Lemma value_confirm_recovers_witness :
  (exists w1,
     toggleCurrentSetting (set_SETTINGS (fun _ => 100) (atCategory 1 4 blank)) = Some w1 /\
     to_int8 (SETTINGS w1 screenMargin) = 5) /\
  (exists w1,
     toggleCurrentSetting (set_SETTINGS (fun _ => 2) (atCategory 1 4 blank)) = Some w1 /\
     to_int8 (SETTINGS w1 screenMargin) <= 40).
Proof.
  split.
  - destruct (value_confirm_recovers (set_SETTINGS (fun _ => 100) (atCategory 1 4 blank))
                screenMarginInfo screenMargin) as ((w1 & H1 & _ & Hreset) & _).
    + split; [simpl; unfold readerSettingsCount; lia | reflexivity].
    + reflexivity.
    + reflexivity.
    + simpl. lia.
    + simpl. lia.
    + simpl. lia.
    + simpl. lia.
    + exists w1. split; [exact H1|]. apply Hreset. vm_compute. reflexivity.
  - destruct (value_confirm_recovers (set_SETTINGS (fun _ => 2) (atCategory 1 4 blank))
                screenMarginInfo screenMargin) as ((w1 & H1 & Hle & _) & _).
    + split; [simpl; unfold readerSettingsCount; lia | reflexivity].
    + reflexivity.
    + reflexivity.
    + simpl. lia.
    + simpl. lia.
    + simpl. lia.
    + simpl. lia.
    + exists w1. split; [exact H1 | exact Hle].
Defined.

(** ** Rendering stays inside the tables *)

Lemma table_in_all c d : In d (tableOf c) -> In d allSettings.
Proof.
  unfold tableOf, allSettings. intros H.
  destruct c as [|[[?|?|]|[?|?|]|]|?];
    repeat (apply in_or_app; first [left; exact H | right]); exact H.
Qed.

(** No field is bound by two descriptors of the tables. *)
Lemma bound_once d d' p :
  In d allSettings -> In d' allSettings ->
  valuePtr d = Some p -> valuePtr d' = Some p -> d = d'.
Proof.
  unfold allSettings, displaySettings, readerSettings, controlsSettings, systemSettings.
  simpl. intros Hd Hd' Hp Hp'.
  repeat (destruct Hd as [<- | Hd]); try contradiction;
    try discriminate Hp; injection Hp as <-;
    repeat (destruct Hd' as [<- | Hd']); try contradiction;
    try discriminate Hp'; reflexivity.
Qed.

Lemma labelsValid_spec s :
  labelsValid s = true <->
  (forall d p, In d allSettings -> type d = ENUM -> valuePtr d = Some p ->
               to_uint8 (s p) < Z.of_nat (List.length (enumValues d))).
Proof.
  unfold labelsValid. rewrite forallb_forall. split.
  - intros H d p Hin Ht Hp. specialize (H d Hin). rewrite Ht, Hp in H.
    apply Z.ltb_lt. exact H.
  - intros H d Hin. destruct (type d) eqn:Ht; try reflexivity.
    destruct (valuePtr d) as [p|] eqn:Hp; [|reflexivity].
    apply Z.ltb_lt. apply (H d p Hin Ht Hp).
Qed.

Lemma labelsValid_cycle i w w' :
  inv w -> labelsValid (SETTINGS w) = true -> loop i w = Stay w' ->
  labelsValid (SETTINGS w') = true.
Proof.
  intros Hinv Hvalid Hloop. unfold loop in Hloop.
  destruct (subActivity w); [discriminate|].
  destruct (confirmPressed i).
  - destruct (Z.eqb_spec (selectedSettingIndex w) 0) as [Hz | Hnz].
    + destruct (afterConfirm_frame _ _ _ _ Hloop) as (_ & -> & _). exact Hvalid.
    + destruct (inv_focused w Hinv Hnz) as (d & Hf & Hin).
      pose proof (table_entries_ok (selectedCategoryIndex w)) as Hall.
      rewrite forallb_forall in Hall. specialize (Hall d Hin). unfold tableEntry_ok in Hall.
      destruct (type d) eqn:Ht.
      * (* Toggle, Enum and Value share the argument; an Action writes nothing *)
        destruct (toggle_mutable w d Hf Hall) as (w1 & p & H1 & Hp & Hnew & Hrest & _).
        rewrite H1 in Hloop. injection Hloop as <-. simpl.
        apply labelsValid_spec. intros d' p' Hin' Ht' Hp'.
        destruct (Field_eq_dec p' p) as [-> | Hne].
        -- rewrite (bound_once d' d p Hin' (table_in_all _ _ Hin) Hp' Hp) in Ht'. congruence.
        -- rewrite (Hrest p' Hne). apply (proj1 (labelsValid_spec _) Hvalid d' p' Hin' Ht' Hp').
      * destruct (toggle_mutable w d Hf Hall) as (w1 & p & H1 & Hp & Hnew & Hrest & _).
        rewrite H1 in Hloop. injection Hloop as <-. simpl.
        destruct (mutable_size d Ht Hall) as [Hcast Hk].
        apply labelsValid_spec. intros d' p' Hin' Ht' Hp'.
        destruct (Field_eq_dec p' p) as [-> | Hne].
        -- rewrite (bound_once d' d p Hin' (table_in_all _ _ Hin) Hp' Hp).
           rewrite Hnew. unfold newCell. rewrite Ht, Hcast, to_uint8_idem.
           pose proof (Z.mod_pos_bound (to_uint8 (SETTINGS w p) + 1)
                         (Z.of_nat (List.length (enumValues d))) ltac:(lia)).
           rewrite to_uint8_small by lia. lia.
        -- rewrite (Hrest p' Hne). apply (proj1 (labelsValid_spec _) Hvalid d' p' Hin' Ht' Hp').
      * rewrite (toggle_ACTION w d Hf Ht) in Hloop. injection Hloop as <-.
        destruct (actionFor (name d)); exact Hvalid.
      * destruct (toggle_mutable w d Hf Hall) as (w1 & p & H1 & Hp & Hnew & Hrest & _).
        rewrite H1 in Hloop. injection Hloop as <-. simpl.
        apply labelsValid_spec. intros d' p' Hin' Ht' Hp'.
        destruct (Field_eq_dec p' p) as [-> | Hne].
        -- rewrite (bound_once d' d p Hin' (table_in_all _ _ Hin) Hp' Hp) in Ht'. congruence.
        -- rewrite (Hrest p' Hne). apply (proj1 (labelsValid_spec _) Hvalid d' p' Hin' Ht' Hp').
  - destruct (afterConfirm_frame _ _ _ _ Hloop) as (_ & -> & _). exact Hvalid.
Qed.

Lemma rows_defined declared w :
  inv w -> labelsValid (SETTINGS w) = true ->
  forall i, 0 <= i < settingsCount w ->
            exists n v, rowName w i = Some n /\ rowValue declared w i = Some v.
Proof.
  intros (Hcat & Hl & Hn & _) Hvalid i Hi. unfold rowName, rowValue.
  replace (i <? 0) with false by (symmetry; apply Z.ltb_ge; lia).
  destruct (nth_error (settingsList w) (Z.to_nat i)) as [d|] eqn:E.
  - assert (In d allSettings) as Hin.
    { apply (table_in_all (selectedCategoryIndex w)). rewrite <- Hl.
      eapply nth_error_In. exact E. }
    exists (name d). simpl.
    destruct (type d) eqn:Ht; destruct (valuePtr d) as [p|] eqn:Hp; eauto.
    pose proof (proj1 (labelsValid_spec _) Hvalid d p Hin Ht Hp) as Hlt.
    destruct (nth_error (enumValues d) (Z.to_nat (to_uint8 (SETTINGS w p)))) as [s|] eqn:Es;
      [eauto|].
    apply nth_error_None in Es. pose proof (to_uint8_range (SETTINGS w p)). lia.
  - apply nth_error_None in E. rewrite Hl in E.
    pose proof (table_length (selectedCategoryIndex w)). lia.
Qed.

(** X16: rendering never reads outside a table or outside the labels of an
    Enum.  From a well-formed screen whose Enum fields all hold label
    indices, after any sequence of input cycles that keep the screen in
    charge the screen is again well formed, the Enum fields again hold label
    indices, and both row callbacks are defined on every row [drawList] may
    ask for. *)
Theorem render_stays_in_bounds (declared : Z -> Z) (inputs : list Input) (w w' : World)
  (Hinv : inv w)
  (Hvalid : labelsValid (SETTINGS w) = true)
  (Hrun : run inputs w = Stay w') :
  inv w' /\
  labelsValid (SETTINGS w') = true /\
  (forall i, 0 <= i < settingsCount w' ->
             exists n v, rowName w' i = Some n /\ rowValue declared w' i = Some v).
Proof.
  revert w Hinv Hvalid Hrun. induction inputs as [|i rest IH]; intros w Hinv Hvalid Hrun.
  - injection Hrun as <-. split; [exact Hinv|]. split; [exact Hvalid|].
    apply rows_defined; assumption.
  - simpl in Hrun. destruct (loop i w) as [w1| | |] eqn:Hloop; try discriminate.
    apply (IH w1).
    + pose proof (loop_inv i w Hinv) as Hk. rewrite Hloop in Hk. exact Hk.
    + eapply labelsValid_cycle; eassumption.
    + exact Hrun.
Qed.

(** The witness: from [onEnter] with every field zero, Down, two Confirms on
    "Sleep Screen" and a held Down into Reader. *)
Lemma render_stays_in_bounds_witness :
  exists w',
    run [holdDown 0; confirmOnly; confirmOnly; holdDown 800] (onEnter blank) = Stay w' /\
    rowValue to_uint8 w' 3 = Some "0" /\
    rowValue to_uint8 (atCategory 0 1 w') 0 = Some "Custom".
Proof.
  assert (inv (onEnter blank)) as Hinv.
  { unfold inv. simpl. unfold displaySettingsCount. repeat split; lia. }
  destruct (run [holdDown 0; confirmOnly; confirmOnly; holdDown 800] (onEnter blank))
    as [w'| | |] eqn:Hrun; try (vm_compute in Hrun; discriminate Hrun).
  destruct (render_stays_in_bounds to_uint8 _ _ _ Hinv eq_refl Hrun) as (_ & _ & Hrows).
  exists w'. split; [reflexivity|].
  vm_compute in Hrun. injection Hrun as <-. split; reflexivity.
Defined.

(** ** Saves *)

Lemma confirmN_saves d n w :
  focused w d -> mutable d = true ->
  exists wn,
    confirmN n w = Some wn /\
    events wn = (events w ++ repeat SaveToFile n)%list /\
    subActivity wn = subActivity w.
Proof.
  revert w. induction n as [|n IH]; intros w Hf Hm.
  - exists w. simpl. rewrite app_nil_r. repeat split.
  - destruct (toggle_mutable w d Hf Hm) as (w1 & p & H1 & _ & _ & _ & He & Hs).
    destruct (IH w1 (toggle_focused _ _ d H1 Hf) Hm) as (wn & Hn & Hen & Hsn).
    exists wn. simpl. rewrite H1. split; [exact Hn|].
    rewrite Hen, He, Hsn, Hs, <- app_assoc. split; reflexivity.
Qed.

(** X17: [n] confirmations in a row of a bound Toggle, Enum (1 to 255
    labels) or Value make exactly [n] calls of [saveToFile] and no other
    collaborator call: one save per confirmation, none batched, none
    skipped, also when the value comes back to where it was. *)
Theorem one_save_per_confirmation (n : nat) (w : World) (d : SettingInfo)
  (Hfocus : focused w d)
  (Hmutable : mutable d = true) :
  exists wn,
    confirmN n w = Some wn /\
    events wn = (events w ++ repeat SaveToFile n)%list /\
    count_occ Event_eq_dec (events wn) SaveToFile =
      (count_occ Event_eq_dec (events w) SaveToFile + n)%nat.
Proof.
  destruct (confirmN_saves d n w Hfocus Hmutable) as (wn & Hn & He & _).
  exists wn. split; [exact Hn|]. split; [exact He|].
  rewrite He, count_occ_app. f_equal.
  clear. induction n as [|n IH]; [reflexivity|].
  simpl. destruct (Event_eq_dec SaveToFile SaveToFile); [|congruence]. rewrite IH. reflexivity.
Qed.

(** The witness: six confirmations of "Sleep Screen" (six labels) bring the
    value back and save six times. *)
Lemma one_save_per_confirmation_witness :
  exists w6,
    confirmN 6 (atCategory 0 1 blank) = Some w6 /\
    SETTINGS w6 sleepScreen = 0 /\
    events w6 = [SaveToFile; SaveToFile; SaveToFile; SaveToFile; SaveToFile; SaveToFile].
Proof.
  destruct (one_save_per_confirmation 6 (atCategory 0 1 blank)
              (Enum "Sleep Screen" sleepScreen
                    ["Dark"; "Light"; "Custom"; "Cover"; "None"; "Cover + Custom"]))
    as (w6 & H6 & He & _).
  - split; [simpl; unfold displaySettingsCount; lia | reflexivity].
  - reflexivity.
  - exists w6. split; [exact H6|]. split; [|exact He].
    vm_compute in H6. injection H6 as <-. reflexivity.
Defined.
